(** * meta-client-sdk: packaging, manifest reconciliation, catalog export
      and the guarded remote-catalog client

    A shallow embedding of the packaging code of package [client] (the
    methods of [CmdGoCar] and the catalog writers) and of
    [client/client.go] ([MetaClient]).  Go strings are byte strings and are modelled by
    [string]; [int64] values are modelled by [Z] with the two's-complement
    wrap-around of Go's [+] written out; a [nil]-able pointer is an
    [option]; a Go call that returns [(v, err)] is an [outcome], which also
    records a run-time panic, distinct from a returned error.

    Logging ([logs.GetLogger()...]) never influences control flow or
    results and is left out of the model. *)

From Stdlib Require Import String Ascii List ZArith Lia Bool Decimal DecimalString.
Import ListNotations.
Local Open Scope string_scope.
Local Open Scope Z_scope.

Set Implicit Arguments.

(* ===================================================================== *)
(** ** Errors, outcomes and the state-and-error monad                     *)
(* ===================================================================== *)

(** A Go [error] value; [errors.New] and [fmt.Errorf] both produce a value
    that carries its message. *)
Inductive error : Type :=
| errorString (msg : string).

Definition errors_New (msg : string) : error := errorString msg.

(** [fmt.Errorf(msg)] with a format string that has no verb. *)
Definition fmt_Errorf (msg : string) : error := errorString msg.

(** [fmt.Errorf(before + "%s", arg)]: the format string's single verb,
    its last element, replaced by [arg]. *)
Definition fmt_Errorf1 (before arg : string) : error :=
  errorString (before ++ arg).

(** What a call can do: return a value with a [nil] error, return a
    non-[nil] error (the value is then [nil]), or panic. *)
Inductive outcome (A : Type) : Type :=
| Ok (a : A)
| Err (e : error)
| Panic (msg : string).

Arguments Ok {A} a.
Arguments Err {A} e.
Arguments Panic {A} msg.

Definition is_ok {A} (r : outcome A) : bool :=
  match r with Ok _ => true | _ => false end.

Definition obind {A B} (r : outcome A) (k : A -> outcome B) : outcome B :=
  match r with
  | Ok a => k a
  | Err e => Err e
  | Panic m => Panic m
  end.

(** Stateful computations over a world [W]. *)
Definition M (W A : Type) : Type := W -> outcome A * W.

Definition ret {W A} (a : A) : M W A := fun w => (Ok a, w).
Definition fail {W A} (e : error) : M W A := fun w => (Err e, w).
Definition bind {W A B} (c : M W A) (k : A -> M W B) : M W B :=
  fun w =>
    match c w with
    | (Ok a, w') => k a w'
    | (Err e, w') => (Err e, w')
    | (Panic m, w') => (Panic m, w')
    end.

(** A call that only reads the world. *)
Definition lift {W A} (f : W -> outcome A) : M W A := fun w => (f w, w).

Declare Scope go_scope.
Delimit Scope go_scope with go.
Notation "x <- c ;; k" := (bind c (fun x => k))
  (at level 61, c at next level, right associativity) : go_scope.
Notation "c ;;; k" := (bind c (fun _ => k))
  (at level 61, right associativity) : go_scope.
Notation "x <~ r ;; k" := (obind r (fun x => k))
  (at level 61, r at next level, right associativity) : go_scope.

(* ===================================================================== *)
(** ** Strings: [strings.Split] on a one-byte separator, slices           *)
(* ===================================================================== *)

Definition comma : ascii := ","%char.

(** [strings.Split(s, sep)] for a separator of one byte: the substrings
    between the occurrences of [sep]; a string without [sep] (the empty
    string too) gives one field. *)
Fixpoint Split (s : string) (sep : ascii) : list string :=
  match s with
  | EmptyString => [EmptyString]
  | String c r =>
      if Ascii.eqb c sep then EmptyString :: Split r sep
      else match Split r sep with
           | [] => [String c EmptyString]
           | f :: fs => String c f :: fs
           end
  end.

(** [strings.Join(elems, sep)]. *)
Fixpoint Join (elems : list string) (sep : string) : string :=
  match elems with
  | [] => EmptyString
  | [e] => e
  | e :: rest => e ++ sep ++ Join rest sep
  end.

(** The built-in [append(s, x)]. *)
Definition append {A} (s : list A) (x : A) : list A := (s ++ [x])%list.

(** [fields[i]]: indexing a slice panics when [i] is out of range. *)
Definition index {A} (l : list A) (i : nat) : outcome A :=
  match nth_error l i with
  | Some a => Ok a
  | None => Panic "index out of range"
  end.

(** No byte of [s] is the separator. *)
Fixpoint sep_free (sep : ascii) (s : string) : bool :=
  match s with
  | EmptyString => true
  | String c r => negb (Ascii.eqb c sep) && sep_free sep r
  end.

(* ===================================================================== *)
(** ** Integers: [int64] and [strconv.FormatInt]                          *)
(* ===================================================================== *)

Definition int64_min : Z := - 2 ^ 63.
Definition int64_max : Z := 2 ^ 63 - 1.

Definition in_int64 (z : Z) : Prop := int64_min <= z <= int64_max.

(** Reduction of a mathematical integer to its [int64] representative. *)
Definition wrap64 (z : Z) : Z := (z + 2 ^ 63) mod 2 ^ 64 - 2 ^ 63.

(** Go's [a + b] on [int64]. *)
Definition add64 (a b : Z) : Z := wrap64 (a + b).

(** [strconv.FormatInt(z, 10)] and [strconv.Itoa]: decimal digits, a
    leading [-] for negatives, [0] for zero. *)
Definition FormatInt (z : Z) : string := NilZero.string_of_int (Z.to_int z).
Definition Itoa (z : Z) : string := FormatInt z.

(* ===================================================================== *)
(** ** Data model                                                         *)
(* ===================================================================== *)

Definition DIR_NAME_INPUT : string := "input".
Definition DIR_NAME_OUTPUT : string := "output".
Definition JSON_FILE_NAME_CAR_UPLOAD : string := "car.json".
Definition CSV_FILE_NAME_CAR_UPLOAD : string := "car.csv".

(** [CmdGoCar].  Every method reads [InputDir] as one path (it is handed
    to [filepath.Base], [filepath.Join] and [ioutil.ReadDir]), so it is a
    [string] here. *)
Record CmdGoCar : Type := mkCmdGoCar {
  OutputDir : string;
  InputDir : string;
  GenerateMd5 : bool;
  GocarFileSizeLimit : Z;
  GocarFolderBased : bool;
  Parallel : Z
}.

Record FileDesc : Type := mkFileDesc {
  Uuid : string;
  SourceFileName : string;
  SourceFilePath : string;
  SourceFileMd5 : string;
  SourceFileSize : Z;
  CarFileName : string;
  CarFilePath : string;
  CarFileMd5 : string;
  CarFileUrl : string;
  CarFileSize : Z;
  PayloadCid : string;
  PieceCid : string;
  StartEpoch : option Z;
  SourceId : option Z
}.

(** [FileDesc{}]: the zero value. *)
Definition FileDesc_zero : FileDesc :=
  mkFileDesc "" "" "" "" 0 "" "" "" "" 0 "" "" None None.

(** One element of [ManifestDetail.Link]. *)
Record ManifestLink : Type := mkManifestLink {
  LinkName : string;
  LinkHash : string;
  LinkSize : Z
}.

Record ManifestDetail : Type := mkManifestDetail {
  Name : string;
  Hash : string;
  Size : Z;
  Link : list ManifestLink
}.

(** Field updates, one per assignment [fileDesc.X = v] of the source. *)
Definition set_PayloadCid (v : string) (d : FileDesc) : FileDesc :=
  mkFileDesc (Uuid d) (SourceFileName d) (SourceFilePath d) (SourceFileMd5 d)
    (SourceFileSize d) (CarFileName d) (CarFilePath d) (CarFileMd5 d)
    (CarFileUrl d) (CarFileSize d) v (PieceCid d) (StartEpoch d) (SourceId d).
Definition set_CarFileName (v : string) (d : FileDesc) : FileDesc :=
  mkFileDesc (Uuid d) (SourceFileName d) (SourceFilePath d) (SourceFileMd5 d)
    (SourceFileSize d) v (CarFilePath d) (CarFileMd5 d)
    (CarFileUrl d) (CarFileSize d) (PayloadCid d) (PieceCid d) (StartEpoch d) (SourceId d).
Definition set_CarFileUrl (v : string) (d : FileDesc) : FileDesc :=
  mkFileDesc (Uuid d) (SourceFileName d) (SourceFilePath d) (SourceFileMd5 d)
    (SourceFileSize d) (CarFileName d) (CarFilePath d) (CarFileMd5 d)
    v (CarFileSize d) (PayloadCid d) (PieceCid d) (StartEpoch d) (SourceId d).
Definition set_CarFilePath (v : string) (d : FileDesc) : FileDesc :=
  mkFileDesc (Uuid d) (SourceFileName d) (SourceFilePath d) (SourceFileMd5 d)
    (SourceFileSize d) (CarFileName d) v (CarFileMd5 d)
    (CarFileUrl d) (CarFileSize d) (PayloadCid d) (PieceCid d) (StartEpoch d) (SourceId d).
Definition set_PieceCid (v : string) (d : FileDesc) : FileDesc :=
  mkFileDesc (Uuid d) (SourceFileName d) (SourceFilePath d) (SourceFileMd5 d)
    (SourceFileSize d) (CarFileName d) (CarFilePath d) (CarFileMd5 d)
    (CarFileUrl d) (CarFileSize d) (PayloadCid d) v (StartEpoch d) (SourceId d).
Definition set_CarFileSize (v : Z) (d : FileDesc) : FileDesc :=
  mkFileDesc (Uuid d) (SourceFileName d) (SourceFilePath d) (SourceFileMd5 d)
    (SourceFileSize d) (CarFileName d) (CarFilePath d) (CarFileMd5 d)
    (CarFileUrl d) v (PayloadCid d) (PieceCid d) (StartEpoch d) (SourceId d).
Definition set_SourceFileName (v : string) (d : FileDesc) : FileDesc :=
  mkFileDesc (Uuid d) v (SourceFilePath d) (SourceFileMd5 d)
    (SourceFileSize d) (CarFileName d) (CarFilePath d) (CarFileMd5 d)
    (CarFileUrl d) (CarFileSize d) (PayloadCid d) (PieceCid d) (StartEpoch d) (SourceId d).
Definition set_SourceFilePath (v : string) (d : FileDesc) : FileDesc :=
  mkFileDesc (Uuid d) (SourceFileName d) v (SourceFileMd5 d)
    (SourceFileSize d) (CarFileName d) (CarFilePath d) (CarFileMd5 d)
    (CarFileUrl d) (CarFileSize d) (PayloadCid d) (PieceCid d) (StartEpoch d) (SourceId d).
Definition set_SourceFileSize (v : Z) (d : FileDesc) : FileDesc :=
  mkFileDesc (Uuid d) (SourceFileName d) (SourceFilePath d) (SourceFileMd5 d)
    v (CarFileName d) (CarFilePath d) (CarFileMd5 d)
    (CarFileUrl d) (CarFileSize d) (PayloadCid d) (PieceCid d) (StartEpoch d) (SourceId d).
Definition set_SourceFileMd5 (v : string) (d : FileDesc) : FileDesc :=
  mkFileDesc (Uuid d) (SourceFileName d) (SourceFilePath d) v
    (SourceFileSize d) (CarFileName d) (CarFilePath d) (CarFileMd5 d)
    (CarFileUrl d) (CarFileSize d) (PayloadCid d) (PieceCid d) (StartEpoch d) (SourceId d).
Definition set_CarFileMd5 (v : string) (d : FileDesc) : FileDesc :=
  mkFileDesc (Uuid d) (SourceFileName d) (SourceFilePath d) (SourceFileMd5 d)
    (SourceFileSize d) (CarFileName d) (CarFilePath d) v
    (CarFileUrl d) (CarFileSize d) (PayloadCid d) (PieceCid d) (StartEpoch d) (SourceId d).

(* ===================================================================== *)
(** ** The collaborators the package calls                                *)
(* ===================================================================== *)

(** Library functions and the operating system, as an interface over a
    world [W] (the disk, chiefly).  Calls that only inspect the world
    return no new world.  Nothing is assumed about any of them. *)
Class Sys (W : Type) : Type := {
  (** [utils.CreateDirIfNotExists(dir, dirName)] *)
  CreateDirIfNotExists : string -> string -> M W unit;
  (** [ioutil.ReadDir(dir)], the entries' [Name()]s *)
  ReadDir : string -> W -> outcome (list string);
  (** [graphsplit.ChunkMulti(ctx, sliceSize, parentPath, targetPaths,
      carDir, graphName, parallel, cb)]; the background context and the
      callback [graphsplit.CommPCallback(carDir, false, false)] are the
      same at every call and are not passed *)
  ChunkMulti : Z -> string -> list string -> string -> string -> Z -> M W unit;
  (** [graphsplit.CarTo(carPath, outputDir, parallel)]: no result value *)
  CarTo : string -> string -> Z -> W -> W;
  (** [graphsplit.Merge(dir, parallel)]: no result value *)
  Merge : string -> Z -> W -> W;
  (** [utils.ReadAllLines(dir, filename)] *)
  ReadAllLines : string -> string -> W -> outcome (list string);
  (** [utils.GetInt64FromStr(s)] *)
  GetInt64FromStr : string -> Z;
  (** [json.Unmarshal([]byte(s), &manifestDetail)] on a zero
      [ManifestDetail] *)
  Unmarshal : string -> outcome ManifestDetail;
  (** [json.MarshalIndent(fileDescs, "", " ")] *)
  MarshalIndent : list FileDesc -> outcome string;
  (** [filepath.Join(a, b)] and [filepath.Base(p)] *)
  filepath_Join : string -> string -> string;
  filepath_Base : string -> string;
  (** [utils.IsFileExistsFullPath(path)] *)
  IsFileExistsFullPath : string -> W -> bool;
  (** [checksum.MD5sum(path)] *)
  MD5sum : string -> W -> outcome string;
  (** [os.MkdirAll(dir, os.ModePerm)] *)
  MkdirAll : string -> M W unit;
  (** [ioutil.WriteFile(path, content, 0644)] *)
  WriteFile : string -> string -> M W unit;
  (** [os.Create(path)] *)
  os_Create : string -> M W unit;
  (** [writer.Write(record)] on the csv writer of the file at [path];
      the deferred [Flush] and [Close] are folded into it *)
  csv_Write : string -> list string -> M W unit
}.

(* ===================================================================== *)
(** ** The metadata writer                                                *)
(* ===================================================================== *)

Section Writer.
Context {W : Type} {sys : Sys W}.
Local Open Scope go_scope.

(** The [headers] slice built by [WriteCarFilesToCsvFile]. *)
Definition csvHeaders : list string :=
  let headers := [] in
  let headers := append headers "uuid" in
  let headers := append headers "source_file_name" in
  let headers := append headers "source_file_path" in
  let headers := append headers "source_file_md5" in
  let headers := append headers "source_file_size" in
  let headers := append headers "car_file_name" in
  let headers := append headers "car_file_path" in
  let headers := append headers "car_file_md5" in
  let headers := append headers "car_file_url" in
  let headers := append headers "car_file_size" in
  let headers := append headers "pay_load_cid" in
  let headers := append headers "piece_cid" in
  let headers := append headers "start_epoch" in
  let headers := append headers "source_id" in
  let headers := append headers "deals" in
  headers.

(** The [columns] slice built for one [carFile] in the loop body. *)
Definition csvColumns (carFile : FileDesc) : list string :=
  let columns := [] in
  let columns := append columns (Uuid carFile) in
  let columns := append columns (SourceFileName carFile) in
  let columns := append columns (SourceFilePath carFile) in
  let columns := append columns (SourceFileMd5 carFile) in
  let columns := append columns (FormatInt (SourceFileSize carFile)) in
  let columns := append columns (CarFileName carFile) in
  let columns := append columns (CarFilePath carFile) in
  let columns := append columns (CarFileMd5 carFile) in
  let columns := append columns (CarFileUrl carFile) in
  let columns := append columns (FormatInt (CarFileSize carFile)) in
  let columns := append columns (PayloadCid carFile) in
  let columns := append columns (PieceCid carFile) in
  let columns :=
    match StartEpoch carFile with
    | Some e => append columns (FormatInt e)
    | None => append columns ""
    end in
  let columns :=
    match SourceId carFile with
    | Some i => append columns (Itoa i)
    | None => append columns ""
    end in
  (* no deals *)
  let columns := append columns ("") in
  columns.

(** The [for _, carFile := range carFiles] loop. *)
Fixpoint writeCarFileRows (csvFilePath : string) (carFiles : list FileDesc)
  : M W unit :=
  match carFiles with
  | [] => ret tt
  | carFile :: rest =>
      csv_Write csvFilePath (csvColumns carFile) ;;;
      writeCarFileRows csvFilePath rest
  end.

Definition WriteCarFilesToCsvFile (carFiles : list FileDesc)
  (outDir csvFileName : string) : M W unit :=
  let csvFilePath := filepath_Join outDir csvFileName in
  os_Create csvFilePath ;;;
  csv_Write csvFilePath csvHeaders ;;;
  writeCarFileRows csvFilePath carFiles.

Definition WriteFileDescsToJsonFile (fileDescs : list FileDesc)
  (outputDir jsonFileName : string) : M W string :=
  let jsonFilePath := filepath_Join outputDir jsonFileName in
  content <- lift (fun _ => MarshalIndent fileDescs) ;;
  WriteFile jsonFilePath content ;;;
  ret jsonFilePath.

Definition WriteCarFilesToFiles (carFiles : list FileDesc)
  (outputDir jsonFilename csvFileName : string) : M W string :=
  MkdirAll outputDir ;;;
  jsonFilePath <- WriteFileDescsToJsonFile carFiles outputDir jsonFilename ;;
  WriteCarFilesToCsvFile carFiles outputDir csvFileName ;;;
  ret jsonFilePath.

End Writer.

(* ===================================================================== *)
(** ** The manifest reconciler                                            *)
(* ===================================================================== *)

Section Reconciler.
Context {W : Type} {sys : Sys W}.
Local Open Scope go_scope.

Definition manifestFilename : string := "manifest.csv".

(** [for i := 5; i < len(fields); i++ { carFileDetail = carFileDetail +
    "," + fields[i] }], started from [carFileDetail := fields[4]]. *)
Definition rejoinDetail (fields : list string) : outcome string :=
  carFileDetail <~ index fields 4 ;;
  Ok (fold_left (fun carFileDetail field => carFileDetail ++ "," ++ field)
        (skipn 5 fields) carFileDetail).

(** [for _, link := range manifestDetail.Link { fileDesc.SourceFileSize =
    fileDesc.SourceFileSize + link.Size }]. *)
Definition addLinkSizes (links : list ManifestLink) (fileDesc : FileDesc)
  : FileDesc :=
  fold_left
    (fun fileDesc link =>
       set_SourceFileSize (add64 (SourceFileSize fileDesc) (LinkSize link))
         fileDesc)
    links fileDesc.

(** The source-unit policy branch ([if cmdGoCar.GocarFolderBased]). *)
Definition resolvePolicy (cmdGoCar : CmdGoCar) (manifestDetail : ManifestDetail)
  (fileDesc : FileDesc) : outcome FileDesc :=
  if GocarFolderBased cmdGoCar then
    let fileDesc :=
      set_SourceFileName (filepath_Base (InputDir cmdGoCar)) fileDesc in
    let fileDesc := set_SourceFilePath (InputDir cmdGoCar) fileDesc in
    Ok (addLinkSizes (Link manifestDetail) fileDesc)
  else
    link0 <~ index (Link manifestDetail) 0 ;;
    let fileDesc := set_SourceFileName (LinkName link0) fileDesc in
    let fileDesc :=
      set_SourceFilePath
        (filepath_Join (InputDir cmdGoCar) (SourceFileName fileDesc))
        fileDesc in
    link0' <~ index (Link manifestDetail) 0 ;;
    Ok (set_SourceFileSize (LinkSize link0') fileDesc).

(** The checksum branch ([if cmdGoCar.GenerateMd5]). *)
Definition fillChecksums (cmdGoCar : CmdGoCar) (w : W) (fileDesc : FileDesc)
  : outcome FileDesc :=
  if GenerateMd5 cmdGoCar then
    fileDesc <~
      (if IsFileExistsFullPath (SourceFilePath fileDesc) w then
         srcFileMd5 <~ MD5sum (SourceFilePath fileDesc) w ;;
         Ok (set_SourceFileMd5 srcFileMd5 fileDesc)
       else Ok fileDesc) ;;
    carFileMd5 <~ MD5sum (CarFilePath fileDesc) w ;;
    Ok (set_CarFileMd5 carFileMd5 fileDesc)
  else Ok fileDesc.

(** The body of the loop over the manifest lines, for one data line. *)
Definition manifestRow (cmdGoCar : CmdGoCar) (w : W) (line : string)
  : outcome FileDesc :=
  let fields := Split line comma in
  if (length fields <? 5)%nat then
    Err (fmt_Errorf1 "not enough fields in " manifestFilename)
  else
    let fileDesc := FileDesc_zero in
    f0 <~ index fields 0 ;;
    let fileDesc := set_PayloadCid f0 fileDesc in
    let fileDesc := set_CarFileName (PayloadCid fileDesc ++ ".car") fileDesc in
    let fileDesc := set_CarFileUrl (CarFileName fileDesc) fileDesc in
    let fileDesc :=
      set_CarFilePath
        (filepath_Join (OutputDir cmdGoCar) (CarFileName fileDesc)) fileDesc in
    f2 <~ index fields 2 ;;
    let fileDesc := set_PieceCid f2 fileDesc in
    f3 <~ index fields 3 ;;
    let fileDesc := set_CarFileSize (GetInt64FromStr f3) fileDesc in
    carFileDetail <~ rejoinDetail fields ;;
    manifestDetail <~ Unmarshal carFileDetail ;;
    fileDesc <~ resolvePolicy cmdGoCar manifestDetail fileDesc ;;
    fillChecksums cmdGoCar w fileDesc.

(** [for i, line := range lines], after the [i == 0] line was skipped:
    the descriptors are appended to [fileDescs] in order. *)
Fixpoint manifestRows (cmdGoCar : CmdGoCar) (w : W) (lines : list string)
  (fileDescs : list FileDesc) : outcome (list FileDesc) :=
  match lines with
  | [] => Ok fileDescs
  | line :: rest =>
      fileDesc <~ manifestRow cmdGoCar w line ;;
      manifestRows cmdGoCar w rest (append fileDescs fileDesc)
  end.

Definition createFilesDescFromManifest (cmdGoCar : CmdGoCar)
  : M W (list FileDesc) :=
  lines <- lift (ReadAllLines (OutputDir cmdGoCar) manifestFilename) ;;
  fileDescs <- lift (fun w => manifestRows cmdGoCar w (tl lines) []) ;;
  WriteCarFilesToFiles fileDescs (OutputDir cmdGoCar)
    JSON_FILE_NAME_CAR_UPLOAD CSV_FILE_NAME_CAR_UPLOAD ;;;
  ret fileDescs.

End Reconciler.

(* ===================================================================== *)
(** ** The packaging and restore orchestrators                            *)
(* ===================================================================== *)

Section Orchestrators.
Context {W : Type} {sys : Sys W}.
Local Open Scope go_scope.

(** [for _, srcFile := range srcFiles] of [CreateGoCarFiles]. *)
Fixpoint chunkEntries (cmdGoCar : CmdGoCar) (sliceSize : Z) (carDir : string)
  (srcFiles : list string) : M W unit :=
  match srcFiles with
  | [] => ret tt
  | srcFile :: rest =>
      let parentPath := filepath_Join (InputDir cmdGoCar) srcFile in
      let targetPath := parentPath in
      let graphName := srcFile in
      ChunkMulti sliceSize parentPath [targetPath] carDir graphName
        (Parallel cmdGoCar) ;;;
      chunkEntries cmdGoCar sliceSize carDir rest
  end.

Definition CreateGoCarFiles (cmdGoCar : CmdGoCar) : M W (list FileDesc) :=
  CreateDirIfNotExists (OutputDir cmdGoCar) DIR_NAME_OUTPUT ;;;
  let sliceSize := GocarFileSizeLimit cmdGoCar in
  if sliceSize <=? 0 then
    fail (fmt_Errorf "gocar file size limit is too smal")
  else
    srcFiles <- lift (ReadDir (InputDir cmdGoCar)) ;;
    let carDir := OutputDir cmdGoCar in
    (if GocarFolderBased cmdGoCar then
       let parentPath := InputDir cmdGoCar in
       let targetPath := parentPath in
       let graphName := filepath_Base parentPath in
       ChunkMulti sliceSize parentPath [targetPath] carDir graphName
         (Parallel cmdGoCar)
     else chunkEntries cmdGoCar sliceSize carDir srcFiles) ;;;
    createFilesDescFromManifest cmdGoCar.

Definition RestoreCarToFiles (cmdGoCar : CmdGoCar) : M W unit :=
  CreateDirIfNotExists (OutputDir cmdGoCar) DIR_NAME_OUTPUT ;;;
  fun w =>
    let w := CarTo (InputDir cmdGoCar) (OutputDir cmdGoCar) (Parallel cmdGoCar) w in
    let w := Merge (OutputDir cmdGoCar) (Parallel cmdGoCar) w in
    (Ok tt, w).

End Orchestrators.

(** The error kinds of the specification, as the values the code builds. *)
Definition ManifestFormatError : error :=
  errorString "not enough fields in manifest.csv".
Definition ConfigurationError : error :=
  errorString "gocar file size limit is too smal".

(* ===================================================================== *)
(** ** The remote-catalog client ([client/client.go])                      *)
(* ===================================================================== *)

Module Client.

(** [Aria2Conf]: the client stores the pointer and tests it against
    [nil]; its fields are declared outside [client.go] and are never read
    there, so the settings are one uninterpreted value. *)
Record Aria2Conf : Type := mkAria2Conf {
  Aria2Settings : string
}.

(** [MetaConf], with the fields the client reads and writes ([Aria2] is
    the field [Aria2Conf]). *)
Record MetaConf : Type := mkMetaConf {
  MetaServer : string;
  IpfsApi : string;
  IpfsGateway : string;
  Aria2 : option Aria2Conf
}.

Record MetaClient : Type := mkMetaClient {
  key : string;
  token : string;
  conf : option MetaConf
}.

Record IpfsData : Type := mkIpfsData {
  IpfsCid : string;
  SourceName : string;
  DataSize : Z;
  IsDirectory : bool;
  DownloadUrl : string
}.

(** The values placed in [JsonRpcParams.Params] ([[]interface{}]). *)
Inductive param : Type :=
| P_string (s : string)
| P_IpfsDataList (l : list IpfsData)
| P_DatasetListReq (datasetName : string) (pageNum size : Z)
| P_SourceFileStatusReq (datasetName ipfsCid : string) (pageNum size : Z)
| P_RebuildReq (DatasetID : Z) (PayloadCIDs : list string).

Record JsonRpcParams : Type := mkJsonRpcParams {
  JsonRpc : string;
  Method : string;
  Params : list param;
  Id : Z
}.

(** The [Result] envelope every response type shares. *)
Record RpcResult (D : Type) : Type := mkRpcResult {
  Code : string;
  Message : string;
  Data : D
}.

Arguments mkRpcResult {D} _ _ _.
Arguments Code {D} _.
Arguments Message {D} _.
Arguments Data {D} _.

Definition http_MethodPost : string := "POST".

(** The network and the response decoders: [httpRequestWithKey], the one
    function through which the client reaches the meta server, acts on a
    network state [N]; each [json.Unmarshal] into a response type is a
    decoder of its own. *)
Class Remote (N : Type) : Type := {
  DatasetListPager : Type;
  SourceFileStatusPager : Type;
  IpfsDataDetail : Type;
  DownloadFileInfoT : Type;
  RebuildData : Type;
  httpRequestWithKey :
    string -> string -> string -> string -> JsonRpcParams -> M N string;
  Unmarshal_StoreSourceFileResponse : string -> outcome (RpcResult Z);
  Unmarshal_DatasetListResponse : string -> outcome (RpcResult DatasetListPager);
  Unmarshal_SourceFileStatusResponse :
    string -> outcome (RpcResult SourceFileStatusPager);
  Unmarshal_SourceFileInfoResponse :
    string -> outcome (RpcResult (list IpfsDataDetail));
  Unmarshal_DownloadFileInfoResponse :
    string -> outcome (RpcResult (list DownloadFileInfoT));
  Unmarshal_JsonRpcResp : string -> outcome (RpcResult (list RebuildData))
}.

(** [NewClient(key, token, conf...)]: the variadic [conf] is a slice of
    pointers, the first of which, [nil] or not, becomes the client's. *)
Definition NewClient (key token : string) (conf : list (option MetaConf))
  : MetaClient :=
  let cnf := match conf with c :: _ => c | [] => None end in
  mkMetaClient key token cnf.

(** [&MetaConf{}]. *)
Definition MetaConf_zero : MetaConf := mkMetaConf "" "" "" None.

(** [if c.conf == nil { c.conf = &MetaConf{} }]. *)
Definition conf_or_zero (c : MetaClient) : MetaConf :=
  match conf c with
  | Some cnf => cnf
  | None => MetaConf_zero
  end.

Definition WithMetaServer (c : MetaClient) (url : string) : MetaClient :=
  let cnf := conf_or_zero c in
  mkMetaClient (key c) (token c)
    (Some (mkMetaConf url (IpfsApi cnf) (IpfsGateway cnf) (Aria2 cnf))).

Definition WithIpfs (c : MetaClient) (api gateway : string) : MetaClient :=
  let cnf := conf_or_zero c in
  mkMetaClient (key c) (token c)
    (Some (mkMetaConf (MetaServer cnf) api gateway (Aria2 cnf))).

Definition WithAria2Conf (c : MetaClient) (aria2 : option Aria2Conf)
  : MetaClient :=
  let cnf := conf_or_zero c in
  mkMetaClient (key c) (token c)
    (Some (mkMetaConf (MetaServer cnf) (IpfsApi cnf) (IpfsGateway cnf) aria2)).

Section Operations.
Context {N : Type} {remote : Remote N}.
Local Open Scope go_scope.

Definition httpPost (m : MetaClient) (params : JsonRpcParams) : M N string :=
  if String.eqb (key m) "" || String.eqb (token m) "" then
    fail (errors_New "key or token is required")
  else
    match conf m with
    | None => fail (errors_New "meta server is required")
    | Some cnf =>
        httpRequestWithKey http_MethodPost (MetaServer cnf) (key m) (token m)
          params
    end.

(** The tail every operation shares: decode the response, then accept it
    only when [res.Result.Code] is ["success"]. *)
Definition decodeResult {D} (decode : string -> outcome (RpcResult D))
  (response : string) : M N D :=
  res <- lift (fun _ => decode response) ;;
  if negb (String.eqb (Code res) "success") then
    fail (errors_New (Message res))
  else ret (Data res).

Definition Backup (m : MetaClient) (datasetName : string)
  (ipfsDataList : list IpfsData) : M N Z :=
  if (length ipfsDataList =? 0)%nat then
    fail (errors_New "ipfsData is required")
  else
    response <- httpPost m
      (mkJsonRpcParams "2.0" "meta.StoreSourceFile"
         [P_string datasetName; P_IpfsDataList ipfsDataList] 1) ;;
    decodeResult Unmarshal_StoreSourceFileResponse response.

Definition List (m : MetaClient) (datasetName : string) (pageNum size : Z)
  : M N DatasetListPager :=
  response <- httpPost m
    (mkJsonRpcParams "2.0" "meta.GetDatasetList"
       [P_DatasetListReq datasetName pageNum size] 1) ;;
  decodeResult Unmarshal_DatasetListResponse response.

Definition ListStatus (m : MetaClient) (datasetName ipfsCid : string)
  (pageNum size : Z) : M N SourceFileStatusPager :=
  response <- httpPost m
    (mkJsonRpcParams "2.0" "meta.GetSourceFileStatus"
       [P_SourceFileStatusReq datasetName ipfsCid pageNum size] 1) ;;
  decodeResult Unmarshal_SourceFileStatusResponse response.

Definition SourceFileInfo (m : MetaClient) (ipfsCid : string)
  : M N (list IpfsDataDetail) :=
  response <- httpPost m
    (mkJsonRpcParams "2.0" "meta.GetSourceFileInfo" [P_string ipfsCid] 1) ;;
  decodeResult Unmarshal_SourceFileInfoResponse response.

Definition DownloadFileInfo (m : MetaClient) (ipfsCid : string)
  : M N (list DownloadFileInfoT) :=
  response <- httpPost m
    (mkJsonRpcParams "2.0" "meta.GetDownloadFileInfoByIpfsCid"
       [P_string ipfsCid] 1) ;;
  decodeResult Unmarshal_DownloadFileInfoResponse response.

Definition Rebuild (m : MetaClient) (datasetId : Z) (ipfsCids : list string)
  : M N (list RebuildData) :=
  response <- httpPost m
    (mkJsonRpcParams "2.0" "meta.DatasetRebuild"
       [P_RebuildReq datasetId ipfsCids] 1) ;;
  decodeResult Unmarshal_JsonRpcResp response.

(** The client cannot post: a credential is empty or no configuration
    was set. *)
Definition unconfigured (m : MetaClient) : Prop :=
  key m = "" \/ token m = "" \/ conf m = None.

End Operations.

End Client.

(* ===================================================================== *)
(** ** Notions the statements are written with                            *)
(* ===================================================================== *)

(** The one-byte separator as a string. *)
Definition sepstr (sep : ascii) : string := String sep EmptyString.

(** The sum of a list of sizes, over the integers. *)
Definition sumZ (l : list Z) : Z := fold_right Z.add 0 l.

(** What the policy branch leaves alone. *)
Definition same_archive_part (d d' : FileDesc) : Prop :=
  Uuid d' = Uuid d /\ CarFileName d' = CarFileName d /\
  CarFilePath d' = CarFilePath d /\ CarFileUrl d' = CarFileUrl d /\
  CarFileSize d' = CarFileSize d /\ PayloadCid d' = PayloadCid d /\
  PieceCid d' = PieceCid d /\ StartEpoch d' = StartEpoch d /\
  SourceId d' = SourceId d.

(** The detail fragment of a manifest line: fields 4 and up, rejoined. *)
Definition detail_of (line : string) : string :=
  Join (skipn 4 (Split line comma)) ",".

(** The sizes of the links of a decoded detail, in order. *)
Definition link_sizes (md : ManifestDetail) : list Z := map LinkSize (Link md).

Section Notions.
Context {W : Type} {sys : Sys W}.
Local Open Scope go_scope.

(** The descriptor as it stands when the detail is about to be decoded. *)
Definition rowPrefix (cmdGoCar : CmdGoCar) (f0 f2 f3 : string) : FileDesc :=
  mkFileDesc "" "" "" "" 0 (f0 ++ ".car")
    (filepath_Join (OutputDir cmdGoCar) (f0 ++ ".car")) ""
    (f0 ++ ".car") (GetInt64FromStr f3) f0 f2 None None.

(** Line [line] reconciles to descriptor [d]. *)
Definition row_ok (cmdGoCar : CmdGoCar) (w : W) (line : string) (d : FileDesc)
  : Prop :=
  manifestRow cmdGoCar w line = Ok d.

(** Writing records to the csv file at [path], one after the other,
    stopping at the first failure. *)
Fixpoint writeRecords (path : string) (records : list (list string))
  : M W unit :=
  match records with
  | [] => ret tt
  | record :: rest => csv_Write path record ;;; writeRecords path rest
  end.

End Notions.

(** The size rule of the two policies, with the whole-directory total
    computed by [whole]. *)
Definition size_rule (whole : list Z -> Z) (cmdGoCar : CmdGoCar)
  (md : ManifestDetail) (d : FileDesc) : Prop :=
  if GocarFolderBased cmdGoCar then SourceFileSize d = whole (link_sizes md)
  else exists link0 rest,
         Link md = link0 :: rest /\ SourceFileSize d = LinkSize link0.

(** The size rule holds, with total [whole], for every descriptor of every
    successful reconciliation, row by row. *)
Definition size_rule_holds (whole : list Z -> Z) : Prop :=
  forall (W : Type) (sys : Sys W) (cmdGoCar : CmdGoCar) (w w' : W)
         (ds : list FileDesc),
    createFilesDescFromManifest cmdGoCar w = (Ok ds, w') ->
    exists lines,
      ReadAllLines (OutputDir cmdGoCar) manifestFilename w = Ok lines /\
      Forall2
        (fun line d =>
           exists md, Unmarshal (detail_of line) = Ok md /\
                      size_rule whole cmdGoCar md d)
        (tl lines) ds.

(** The tabular export has header [header]: whatever the descriptors, the
    file is created and then receives [header] followed by one record per
    descriptor, the header and every record 15 columns wide. *)
Definition export_schema (header : list string) : Prop :=
  forall (W : Type) (sys : Sys W) (carFiles : list FileDesc)
         (outDir csvFileName : string) (w : W),
    exists records,
      WriteCarFilesToCsvFile carFiles outDir csvFileName w =
        bind (os_Create (filepath_Join outDir csvFileName))
          (fun _ =>
             writeRecords (filepath_Join outDir csvFileName) (header :: records))
          w /\
      length header = 15%nat /\
      length records = length carFiles /\
      Forall (fun record => length record = 15%nat) records.

(** The header as the specification lists it. *)
Definition spec_header : list string :=
  ["id"; "source_file_name"; "source_file_path"; "source_file_md5";
   "source_file_size"; "car_file_name"; "car_file_path"; "car_file_md5";
   "car_file_url"; "car_file_size"; "pay_load_cid"; "piece_cid";
   "start_epoch"; "source_id"; "deals"].

(** A non-positive size limit always yields the configuration error. *)
Definition size_limit_always_configuration_error : Prop :=
  forall (W : Type) (sys : Sys W) (cmdGoCar : CmdGoCar) (w : W),
    GocarFileSizeLimit cmdGoCar <= 0 ->
    exists w', CreateGoCarFiles cmdGoCar w = (Err ConfigurationError, w').

(* ===================================================================== *)
(** ** A small concrete world, to run the code on                         *)
(* ===================================================================== *)

Module Sim.

(** What a run did to the disk. *)
Inductive event : Type :=
| MadeDir (dir : string)
| Chunked (parentPath graphName : string)
| WroteFile (path content : string)
| CreatedFile (path : string)
| WroteRecord (path : string) (record : list string)
| Extracted (carPath outputDir : string)
| Merged (dir : string).

Record World : Type := mkWorld {
  manifest : outcome (list string);   (* what reading manifest.csv gives *)
  entries : list string;              (* the entries of the input root *)
  dirOk : bool;                       (* can the output directory be made *)
  present : list string;              (* paths of the files that exist *)
  trace : list event                  (* effects so far, oldest first *)
}.

Definition emit (ev : event) : M World unit :=
  fun w => (Ok tt,
            mkWorld (manifest w) (entries w) (dirOk w) (present w)
              (append (trace w) ev)).

Definition join (a b : string) : string := a ++ "/" ++ b.

Definition base (p : string) : string :=
  last (Split p "/"%char) EmptyString.

Definition parseInt64 (s : string) : Z :=
  match NilZero.int_of_string s with
  | Some i => Z.of_int i
  | None => 0
  end.

(** A decoder given by its graph on the fragments a run meets; any other
    input is a syntax error. *)
Fixpoint decode (table : list (string * ManifestDetail)) (s : string)
  : outcome ManifestDetail :=
  match table with
  | [] => Err (errorString "invalid character")
  | (k, v) :: rest => if String.eqb k s then Ok v else decode rest s
  end.

Definition exists_path (p : string) (w : World) : bool :=
  existsb (String.eqb p) (present w).

Definition md5 (p : string) (w : World) : outcome string :=
  if exists_path p w then Ok ("md5-of-" ++ p)
  else Err (errorString "no such file").

Definition sys (table : list (string * ManifestDetail)) : Sys World := {|
  CreateDirIfNotExists dir _ :=
    fun w => if dirOk w then emit (MadeDir dir) w
             else (Err (errorString "permission denied"), w);
  ReadDir _ := fun w => Ok (entries w);
  ChunkMulti _ parentPath _ _ graphName _ := emit (Chunked parentPath graphName);
  CarTo carPath outputDir _ := fun w => snd (emit (Extracted carPath outputDir) w);
  Merge dir _ := fun w => snd (emit (Merged dir) w);
  ReadAllLines _ _ := manifest;
  GetInt64FromStr := parseInt64;
  Unmarshal := decode table;
  MarshalIndent fileDescs := Ok (Join (map PayloadCid fileDescs) ",");
  filepath_Join := join;
  filepath_Base := base;
  IsFileExistsFullPath := exists_path;
  MD5sum := md5;
  MkdirAll dir := emit (MadeDir dir);
  WriteFile path content := emit (WroteFile path content);
  os_Create path := emit (CreatedFile path);
  csv_Write path record := emit (WroteRecord path record)
|}.

(** A double quote, and a quoted JSON string. *)
Definition dq : string := String (ascii_of_nat 34) EmptyString.
Definition jstr (s : string) : string := dq ++ s ++ dq.

(** [{"Name":n,"Hash":h,"Size":z}] *)
Definition jlink (n h z : string) : string :=
  "{" ++ jstr "Name" ++ ":" ++ jstr n ++ "," ++ jstr "Hash" ++ ":" ++ jstr h
  ++ "," ++ jstr "Size" ++ ":" ++ z ++ "}".

(** [{"Name":"","Hash":"","Size":0,"Link":[...]}] *)
Definition jdetail (links : list string) : string :=
  "{" ++ jstr "Name" ++ ":" ++ jstr EmptyString ++ "," ++ jstr "Hash" ++ ":"
  ++ jstr EmptyString ++ "," ++ jstr "Size" ++ ":0," ++ jstr "Link" ++ ":["
  ++ Join links "," ++ "]}".

(** Two entries [a] (100 bytes) and [b] (200 bytes) in one slice. *)
Definition detail_ab : string :=
  jdetail [jlink "a" "Qma" "100"; jlink "b" "Qmb" "200"].
Definition md_ab : ManifestDetail :=
  mkManifestDetail "" "" 0
    [mkManifestLink "a" "Qma" 100; mkManifestLink "b" "Qmb" 200].

(** One entry per slice. *)
Definition detail_a : string := jdetail [jlink "a" "Qma" "100"].
Definition md_a : ManifestDetail :=
  mkManifestDetail "" "" 0 [mkManifestLink "a" "Qma" 100].

(** A slice whose detail lists no link. *)
Definition detail_none : string := jdetail [].
Definition md_none : ManifestDetail := mkManifestDetail "" "" 0 [].

(** Two links whose sizes add up to [2^63]. *)
Definition detail_huge : string :=
  jdetail [jlink "a" "Qma" "9223372036854775807"; jlink "b" "Qmb" "1"].
Definition md_huge : ManifestDetail :=
  mkManifestDetail "" "" 0
    [mkManifestLink "a" "Qma" 9223372036854775807; mkManifestLink "b" "Qmb" 1].

Definition table : list (string * ManifestDetail) :=
  [(detail_ab, md_ab); (detail_a, md_a); (detail_none, md_none);
   (detail_huge, md_huge)].

Definition header : string :=
  "playload_cid,filename,piece_cid,piece_size,detail".

Definition row (payload piece size detail : string) : string :=
  payload ++ ",graph," ++ piece ++ "," ++ size ++ "," ++ detail.

Definition world (lines : list string) : World :=
  mkWorld (Ok lines) ["a"; "b"] true ["out/bafy1.car"; "out/bafy2.car"] [].

Definition cmd (folderBased md5 : bool) (limit : Z) : CmdGoCar :=
  mkCmdGoCar "out" "in/data" md5 limit folderBased 2.

End Sim.

(* ===================================================================== *)
(** ** Inputs for runs on the concrete world                              *)
(* ===================================================================== *)

Module Runs.
Import Sim.

Definition S : Sys World := sys table.

(** Whole-directory policy, no checksums, one slice holding [a] and [b]. *)
Definition folder_cmd : CmdGoCar := cmd true false 1024.
Definition w_ab : World := world [header; row "bafy1" "baga1" "1024" detail_ab].
Definition d_ab : FileDesc :=
  mkFileDesc "" "data" "in/data" "" 300 "bafy1.car" "out/bafy1.car" ""
    "bafy1.car" 1024 "bafy1" "baga1" None None.

(** Per-entry policy, no checksums, one slice per entry. *)
Definition entry_cmd : CmdGoCar := cmd false false 1024.
Definition line_a : string := row "bafy1" "baga1" "1024" detail_a.
Definition d_a : FileDesc :=
  mkFileDesc "" "a" "in/data/a" "" 100 "bafy1.car" "out/bafy1.car" ""
    "bafy1.car" 1024 "bafy1" "baga1" None None.

(** A manifest whose second data line has four fields only. *)
Definition line_short : string := "bafy2,graph,baga2,5".
Definition w_short : World := world [header; line_a; line_short].

(** A manifest whose second data line lists no link. *)
Definition line_none : string := row "bafy2" "baga2" "5" detail_none.
Definition w_none : World := world [header; line_a; line_none].

(** Whole-directory policy over two links of sizes [2^63 - 1] and [1]. *)
Definition w_huge : World :=
  world [header; row "bafy1" "baga1" "1024" detail_huge].
Definition d_huge : FileDesc :=
  mkFileDesc "" "data" "in/data" "" (-9223372036854775808) "bafy1.car"
    "out/bafy1.car" "" "bafy1.car" 1024 "bafy1" "baga1" None None.

(** A disk on which the output directory cannot be made. *)
Definition w_readonly : World := mkWorld (Ok [header]) ["a"; "b"] false [] [].

End Runs.

(* ===================================================================== *)
(** ** A concrete network, to run the client on                           *)
(* ===================================================================== *)

Module SimNet.

(** The network state: the requests sent so far, as (url, method name). *)
Definition Net : Type := list (string * string).

Definition success (A : Type) (a : A) (_ : string) : outcome (Client.RpcResult A) :=
  Ok (Client.mkRpcResult "success" "ok" a).

Definition remote : Client.Remote Net := {|
  Client.DatasetListPager := unit;
  Client.SourceFileStatusPager := unit;
  Client.IpfsDataDetail := unit;
  Client.DownloadFileInfoT := unit;
  Client.RebuildData := unit;
  Client.httpRequestWithKey _ url _ _ params :=
    fun n => (Ok "{}", append n (url, Client.Method params));
  Client.Unmarshal_StoreSourceFileResponse := success 7;
  Client.Unmarshal_DatasetListResponse := success tt;
  Client.Unmarshal_SourceFileStatusResponse := success tt;
  Client.Unmarshal_SourceFileInfoResponse := success [];
  Client.Unmarshal_DownloadFileInfoResponse := success [];
  Client.Unmarshal_JsonRpcResp := success []
|}.

(** A client with a key and a configuration, but no token. *)
Definition no_token : Client.MetaClient :=
  Client.WithMetaServer (Client.NewClient "key" "" []) "https://meta.example".

(** A client ready to post. *)
Definition ready : Client.MetaClient :=
  Client.WithMetaServer (Client.NewClient "key" "token" []) "https://meta.example".

End SimNet.

(* ===================================================================== *)
(** ** Upload and download ([client/client.go])                           *)
(* ===================================================================== *)

(** [strings.Contains(s, substr)]. *)
Fixpoint Contains (s substr : string) : bool :=
  if String.prefix substr s then true
  else match s with
       | EmptyString => false
       | String _ r => Contains r substr
       end.

Module Transfer.
Import Client.

(** What [Upload] and [Download] call besides the meta server: the fields
    of a [DownloadFileInfo] they read, [PathJoin] (variadic),
    [filepath.Base], [downloadFileByAria2(conf, url, file)],
    [os.Stat(path)] (of which [IsDir()] and [Size()] are read) and the two
    uploaders, which take the shell made by [shell.NewShell(api)], here
    the api address itself.  The listed locations are values: a [nil]
    element of the decoded slice is outside this model.  [log.Printf]
    is left out. *)
Class Files (N : Type) {remote : Remote N} : Type := {
  info_SourceName : DownloadFileInfoT -> string;
  info_IsDirectory : DownloadFileInfoT -> bool;
  info_DownloadUrl : DownloadFileInfoT -> string;
  PathJoin : list string -> string;
  Base : string -> string;
  downloadFileByAria2 : Aria2Conf -> string -> string -> M N unit;
  os_Stat : string -> N -> outcome (bool * Z);
  uploadFileToIpfs : string -> string -> M N string;
  uploadDirToIpfs : string -> string -> M N string
}.

Section Operations.
Context {N : Type} {remote : Remote N} {files : @Files N remote}.
Local Open Scope go_scope.

Definition Upload (m : MetaClient) (inputPath : string) : M N IpfsData :=
  match conf m with
  | None => fail (errors_New "ipfs api or gateway is required")
  | Some cnf =>
      if String.eqb (IpfsApi cnf) "" || String.eqb (IpfsGateway cnf) "" then
        fail (errors_New "ipfs api or gateway is required")
      else
        info <- lift (os_Stat inputPath) ;;
        let sh := IpfsApi cnf in
        ipfsCid <- (if negb (fst info) then uploadFileToIpfs sh inputPath
                    else uploadDirToIpfs sh inputPath) ;;
        ret (mkIpfsData ipfsCid inputPath (snd info) (fst info)
               (PathJoin [IpfsGateway cnf; "ipfs"; ipfsCid]))
  end.

(** The [for _, info := range downInfo] loop of [Download] and the error
    after it. *)
Fixpoint downloadFirstMatch (aria2 : Aria2Conf) (ipfsCid outPath : string)
  (downInfo : list DownloadFileInfoT) : M N unit :=
  match downInfo with
  | [] => fail (errors_New "not found matched ipfs cid download url")
  | info :: rest =>
      let realUrl := info_DownloadUrl info in
      if negb (Contains realUrl ipfsCid) then
        downloadFirstMatch aria2 ipfsCid outPath rest
      else
        let downloadFile := PathJoin [outPath; Base (info_SourceName info)] in
        if info_IsDirectory info then
          downloadFileByAria2 aria2 (realUrl ++ "?format=tar")
            (downloadFile ++ ".tar")
        else downloadFileByAria2 aria2 realUrl downloadFile
  end.

(** The branch of [Download] taken for a given, non-empty [downloadUrl[0]]. *)
Definition downloadGiven (aria2 : Aria2Conf) (outPath download : string)
  (downInfo : list DownloadFileInfoT) : M N unit :=
  info0 <- lift (fun _ => index downInfo 0) ;;
  let downloadFile := PathJoin [outPath; Base (info_SourceName info0)] in
  info0' <- lift (fun _ => index downInfo 0) ;;
  let downloadFile :=
    if info_IsDirectory info0' then downloadFile ++ ".tar" else downloadFile in
  downloadFileByAria2 aria2 download downloadFile.

Definition Download (m : MetaClient) (ipfsCid outPath : string)
  (downloadUrl : list string) : M N unit :=
  match conf m with
  | None => fail (errors_New "aria2 config is required")
  | Some cnf =>
      match Aria2 cnf with
      | None => fail (errors_New "aria2 config is required")
      | Some aria2 =>
          downInfo <- DownloadFileInfo m ipfsCid ;;
          if (length downInfo =? 0)%nat then
            fail (errors_New "there are no available download links")
          else
            match downloadUrl with
            | download :: _ =>
                if negb (String.eqb download "") then
                  downloadGiven aria2 outPath download downInfo
                else downloadFirstMatch aria2 ipfsCid outPath downInfo
            | [] => downloadFirstMatch aria2 ipfsCid outPath downInfo
            end
      end
  end.



(** What an operation makes of the transport's answer: the decoded data
    when the code is [success], the server's message as an error when it
    is not, and the transport's or the decoder's failure as it is. *)
Definition settle {D} (decode : string -> outcome (RpcResult D))
  (answer : outcome string * N) : outcome D * N :=
  match answer with
  | (Ok response, n) =>
      match decode response with
      | Ok res =>
          if String.eqb (Code res) "success" then (Ok (Data res), n)
          else (Err (errors_New (Message res)), n)
      | Err e => (Err e, n)
      | Panic p => (Panic p, n)
      end
  | (Err e, n) => (Err e, n)
  | (Panic p, n) => (Panic p, n)
  end.

(** The one request a configured client sends for a call. *)
Definition post (m : MetaClient) (url method : string) (params : list param)
  : M N string :=
  httpRequestWithKey http_MethodPost url (key m) (token m)
    (mkJsonRpcParams "2.0" method params 1).

End Operations.

End Transfer.

(* ===================================================================== *)
(** ** Slicing jobs of the packaging operation                            *)
(* ===================================================================== *)

Section Jobs.
Context {W : Type} {sys : Sys W}.
Local Open Scope go_scope.

(** The slicer invocations a packaging run makes, as (source path, archive
    group name): the input root alone under the whole-directory policy, one
    per entry of the root otherwise. *)
Definition sliceJobs (cmdGoCar : CmdGoCar) (srcFiles : list string)
  : list (string * string) :=
  if GocarFolderBased cmdGoCar then
    [(InputDir cmdGoCar, filepath_Base (InputDir cmdGoCar))]
  else
    map (fun srcFile => (filepath_Join (InputDir cmdGoCar) srcFile, srcFile))
      srcFiles.

(** Running jobs in order, stopping at the first failure. *)
Fixpoint runJobs (cmdGoCar : CmdGoCar) (jobs : list (string * string))
  : M W unit :=
  match jobs with
  | [] => ret tt
  | (parentPath, graphName) :: rest =>
      ChunkMulti (GocarFileSizeLimit cmdGoCar) parentPath [parentPath]
        (OutputDir cmdGoCar) graphName (Parallel cmdGoCar) ;;;
      runJobs cmdGoCar rest
  end.

End Jobs.

(* ===================================================================== *)
(** ** A concrete gateway, to run uploads and downloads on                *)
(* ===================================================================== *)

Module SimTransfer.

Record Info : Type := mkInfo {
  sourceName : string;
  isDirectory : bool;
  downloadUrl : string
}.

Inductive action : Type :=
| Requested (url method : string)
| Downloaded (url file : string)
| Uploaded (api path : string).

(** The state: what the meta server lists for any payload, and the
    actions so far. *)
Record Net : Type := mkNet {
  listed : list Info;
  actions : list action
}.

Definition act (a : action) (n : Net) : Net :=
  mkNet (listed n) (append (actions n) a).

Definition answer (A : Type) (a : A) (_ : string) : outcome (Client.RpcResult A) :=
  Ok (Client.mkRpcResult "success" "ok" a).

(** The decoder of the download listing reads the listing off the
    response, which this transport writes as the names joined by [;]. *)
Definition remote (infos : list Info) : Client.Remote Net := {|
  Client.DatasetListPager := unit;
  Client.SourceFileStatusPager := unit;
  Client.IpfsDataDetail := unit;
  Client.DownloadFileInfoT := Info;
  Client.RebuildData := unit;
  Client.httpRequestWithKey _ url _ _ params :=
    fun n => (Ok "{}", act (Requested url (Client.Method params)) n);
  Client.Unmarshal_StoreSourceFileResponse := answer 7;
  Client.Unmarshal_DatasetListResponse := answer tt;
  Client.Unmarshal_SourceFileStatusResponse := answer tt;
  Client.Unmarshal_SourceFileInfoResponse := answer [];
  Client.Unmarshal_DownloadFileInfoResponse := answer infos;
  Client.Unmarshal_JsonRpcResp := answer []
|}.

Definition files (infos : list Info)
  : @Transfer.Files Net (remote infos) :=
  @Transfer.Build_Files Net (remote infos)
    sourceName isDirectory downloadUrl
    (fun parts => Join parts "/")
    Sim.base
    (fun _ url file n => (Ok tt, act (Downloaded url file) n))
    (fun path _ =>
       if String.eqb path "data" then Ok (true, 4096) else Ok (false, 100))
    (fun api path n => (Ok ("Qm-" ++ path), act (Uploaded api path) n))
    (fun api path n => (Ok ("Qm-" ++ path), act (Uploaded api path) n)).

Definition aria2 : Client.Aria2Conf := Client.mkAria2Conf "localhost:6800".

(** A client with credentials, meta server, ipfs and aria2. *)
Definition full : Client.MetaClient :=
  Client.WithAria2Conf
    (Client.WithIpfs
       (Client.WithMetaServer (Client.NewClient "key" "token" [])
          "https://meta.example")
       "http://127.0.0.1:5001" "https://gw.example")
    (Some aria2).

(** The listing for payload [bafy1]: a mirror whose url lacks the payload
    id, then a directory, then a file. *)
Definition listing : list Info :=
  [mkInfo "in/other" false "https://gw.example/ipfs/bafy9";
   mkInfo "in/data" true "https://gw.example/ipfs/bafy1";
   mkInfo "in/data.bin" false "https://mirror.example/ipfs/bafy1"].

Definition start : Net := mkNet listing [].

End SimTransfer.

(* ===================================================================== *)
(** ** The concrete world with failures injected                          *)
(* ===================================================================== *)

Module SimFaulty.

(** The world of [Sim], except that the input root named [badDir] cannot
    be listed, the slicer fails on the archive group named [badGroup], and
    the csv writer fails on a record whose first column is [badCell]. *)
Definition sys (badDir badGroup badCell : string) : Sys Sim.World := {|
  CreateDirIfNotExists := @CreateDirIfNotExists _ (Sim.sys Sim.table);
  ReadDir dir :=
    fun w => if String.eqb dir badDir
             then Err (errorString "no such directory")
             else Ok (Sim.entries w);
  ChunkMulti _ parentPath _ _ graphName _ :=
    fun w => if String.eqb graphName badGroup
             then (Err (errorString "chunk failed"), w)
             else Sim.emit (Sim.Chunked parentPath graphName) w;
  CarTo := @CarTo _ (Sim.sys Sim.table);
  Merge := @Merge _ (Sim.sys Sim.table);
  ReadAllLines := @ReadAllLines _ (Sim.sys Sim.table);
  GetInt64FromStr := Sim.parseInt64;
  Unmarshal := Sim.decode Sim.table;
  MarshalIndent := @MarshalIndent _ (Sim.sys Sim.table);
  filepath_Join := Sim.join;
  filepath_Base := Sim.base;
  IsFileExistsFullPath := Sim.exists_path;
  MD5sum := Sim.md5;
  MkdirAll := @MkdirAll _ (Sim.sys Sim.table);
  WriteFile := @WriteFile _ (Sim.sys Sim.table);
  os_Create := @os_Create _ (Sim.sys Sim.table);
  csv_Write path record :=
    fun w => if String.eqb (hd EmptyString record) badCell
             then (Err (errorString "disk full"), w)
             else Sim.emit (Sim.WroteRecord path record) w
|}.



End SimFaulty.

(* ===================================================================== *)
(** ** More inputs for runs on the concrete worlds                        *)
(* ===================================================================== *)

Module Cases.
Import Sim.

(** A manifest with one good data line. *)
Definition w_a : World := world [header; Runs.line_a].

(** A manifest with its header only. *)
Definition w_header : World := world [header].

(** Whole-directory policy with checksums; the archive exists on the
    disk, the input root [in/data] is not a file there. *)
Definition md5_cmd : CmdGoCar := cmd true true 1024.
Definition d_ab_md5 : FileDesc :=
  mkFileDesc "" "data" "in/data" "" 300 "bafy1.car" "out/bafy1.car"
    "md5-of-out/bafy1.car" "bafy1.car" 1024 "bafy1" "baga1" None None.

(** A manifest whose second data line has a detail that does not decode. *)
Definition line_broken : string := row "bafy3" "baga3" "9" "{broken".
Definition w_broken : World := world [header; Runs.line_a; line_broken].

(** The faulty world: the root [in/gone] cannot be listed, the slicer
    fails on group [b], the csv writer on a first cell [bad]. *)
Definition F : Sys World := SimFaulty.sys "in/gone" "b" "bad".

(** Whole-directory packaging of a root that cannot be listed. *)
Definition gone_cmd : CmdGoCar := mkCmdGoCar "out" "in/gone" false 1024 true 2.

(** A client with credentials and aria2 settings, but no token. *)
Definition aria2_no_token : Client.MetaClient :=
  Client.WithAria2Conf (Client.NewClient "key" "" []) (Some SimTransfer.aria2).

(** A client with credentials and nothing else. *)
Definition bare : Client.MetaClient := Client.NewClient "key" "token" [].

End Cases.

(* ===================================================================== *)
(** * Lemmas and theorems                                                 *)
(* ===================================================================== *)

(* ===================================================================== *)
(** ** Facts about [Split] and [Join]                                     *)
(* ===================================================================== *)

Lemma Split_not_nil (s : string) (sep : ascii) : Split s sep <> [].
Proof.
  destruct s as [|c r]; simpl; [discriminate|].
  destruct (Ascii.eqb c sep); [discriminate|].
  destruct (Split r sep); discriminate.
Qed.

Lemma Split_length_pos (s : string) (sep : ascii) :
  (1 <= length (Split s sep))%nat.
Proof.
  pose proof (Split_not_nil s sep) as H.
  destruct (Split s sep); [contradiction | simpl; lia].
Qed.

(** Joining the fields of a line with the separator gives the line back. *)
Lemma Join_Split (s : string) (sep : ascii) :
  Join (Split s sep) (sepstr sep) = s.
Proof.
  induction s as [|c r IH]; simpl; [reflexivity|].
  destruct (Ascii.eqb_spec c sep) as [->|Hne].
  - pose proof (Split_not_nil r sep) as Hnil.
    destruct (Split r sep) as [|f fs] eqn:E; [contradiction|].
    simpl in *. now rewrite IH.
  - destruct (Split r sep) as [|f fs] eqn:E.
    + now destruct (Split_not_nil r sep).
    + rewrite <- IH. destruct fs as [|g gs]; reflexivity.
Qed.

Lemma Split_sep_free (s : string) (sep : ascii) :
  Forall (fun f => sep_free sep f = true) (Split s sep).
Proof.
  induction s as [|c r IH]; simpl.
  - constructor; [reflexivity | constructor].
  - destruct (Ascii.eqb c sep) eqn:E.
    + constructor; [reflexivity | exact IH].
    + destruct (Split r sep) as [|f fs].
      * constructor; [simpl; now rewrite E | constructor].
      * inversion IH; subst. constructor; [simpl; now rewrite E | assumption].
Qed.

Lemma append_assoc3 (a b c : string) : (a ++ b) ++ c = a ++ (b ++ c).
Proof. induction a; simpl; congruence. Qed.

Lemma Join_cons (e : string) (rest : list string) (sep : string) :
  rest <> [] -> Join (e :: rest) sep = e ++ sep ++ Join rest sep.
Proof. destruct rest; [contradiction | reflexivity]. Qed.

Lemma Join_app (l1 l2 : list string) (sep : string) :
  l1 <> [] -> l2 <> [] ->
  Join (l1 ++ l2)%list sep = Join l1 sep ++ sep ++ Join l2 sep.
Proof.
  intros H1 H2. induction l1 as [|e l1 IH]; [contradiction|].
  destruct l1 as [|e' l1].
  - change ([e] ++ l2)%list with (e :: l2).
    rewrite Join_cons by assumption. reflexivity.
  - change ((e :: e' :: l1) ++ l2)%list with (e :: ((e' :: l1) ++ l2))%list.
    rewrite Join_cons by discriminate.
    rewrite IH by discriminate.
    rewrite (Join_cons e (rest := e' :: l1)) by discriminate.
    now rewrite !append_assoc3.
Qed.

(** The accumulation loop of the reconciler is [strings.Join]. *)
Lemma rejoin_loop_Join (rest : list string) (first : string) :
  fold_left (fun carFileDetail field => carFileDetail ++ "," ++ field)
    rest first = Join (first :: rest) ",".
Proof.
  revert first. induction rest as [|r rest IH]; intros first; [reflexivity|].
  simpl fold_left. rewrite IH.
  rewrite (Join_cons first (rest := r :: rest)) by discriminate.
  destruct rest as [|r' rest].
  - reflexivity.
  - rewrite !Join_cons by discriminate. now rewrite !append_assoc3.
Qed.

Lemma skipn_cons_nth (A : Type) (l : list A) (n : nat) (a : A) :
  nth_error l n = Some a -> skipn n l = a :: skipn (S n) l.
Proof.
  revert n. induction l as [|x l IH]; intros [|n] H; simpl in *;
    try discriminate.
  - now inversion H.
  - now apply IH.
Qed.

Lemma index_in_range (A : Type) (l : list A) (i : nat) :
  (i < length l)%nat -> exists a, nth_error l i = Some a /\ index l i = Ok a.
Proof.
  intros H. unfold index.
  destruct (nth_error l i) as [a|] eqn:E.
  - now exists a.
  - apply nth_error_None in E. lia.
Qed.

Lemma rejoinDetail_Join (fields : list string) :
  (5 <= length fields)%nat ->
  rejoinDetail fields = Ok (Join (skipn 4 fields) ",").
Proof.
  intros H. unfold rejoinDetail.
  destruct (@index_in_range _ fields 4) as (f4 & Hn & Hi); [lia|].
  rewrite Hi. cbn [obind]. rewrite rejoin_loop_Join.
  now rewrite (skipn_cons_nth _ _ Hn).
Qed.

(* ===================================================================== *)
(** ** Facts about [int64] sums                                           *)
(* ===================================================================== *)


Lemma wrap64_range (z : Z) : in_int64 (wrap64 z).
Proof.
  unfold in_int64, wrap64, int64_min, int64_max.
  pose proof (Z.mod_pos_bound (z + 2 ^ 63) (2 ^ 64) ltac:(lia)). lia.
Qed.

Lemma wrap64_id (z : Z) : in_int64 z -> wrap64 z = z.
Proof.
  unfold in_int64, wrap64, int64_min, int64_max. intros H.
  rewrite Z.mod_small by lia. lia.
Qed.

Lemma wrap64_add_l (a b : Z) : wrap64 (wrap64 a + b) = wrap64 (a + b).
Proof.
  unfold wrap64.
  replace ((a + 2 ^ 63) mod 2 ^ 64 - 2 ^ 63 + b + 2 ^ 63)
    with ((a + 2 ^ 63) mod 2 ^ 64 + b) by lia.
  rewrite Zplus_mod_idemp_l. f_equal. f_equal. lia.
Qed.

Lemma fold_add64_wrap (sizes : list Z) (a : Z) :
  wrap64 (fold_left add64 sizes a) = wrap64 (a + sumZ sizes).
Proof.
  revert a. induction sizes as [|s sizes IH]; intros a; simpl.
  - now rewrite Z.add_0_r.
  - rewrite IH. unfold add64. rewrite wrap64_add_l. f_equal. lia.
Qed.

Lemma fold_add64_range (sizes : list Z) (a : Z) :
  in_int64 a -> in_int64 (fold_left add64 sizes a).
Proof.
  revert a. induction sizes as [|s sizes IH]; intros a Ha; simpl; [assumption|].
  apply IH, wrap64_range.
Qed.

Lemma fold_add64_sum (sizes : list Z) (a : Z) :
  in_int64 a -> fold_left add64 sizes a = wrap64 (a + sumZ sizes).
Proof.
  intros Ha. rewrite <- fold_add64_wrap.
  symmetry. apply wrap64_id. now apply fold_add64_range.
Qed.

(* ===================================================================== *)
(** ** Facts about one manifest row                                       *)
(* ===================================================================== *)

Ltac inv_ok :=
  repeat match goal with
  | H : Ok _ = Ok _ |- _ => inversion H; subst; clear H
  | H : Err _ = Ok _ |- _ => discriminate H
  | H : Panic _ = Ok _ |- _ => discriminate H
  | H : obind ?r _ = Ok _ |- _ =>
      let E := fresh "E" in destruct r eqn:E; cbn [obind] in H
  end.

Section RowFacts.
Context {W : Type} {sys : Sys W}.


Lemma manifestRow_short (cmdGoCar : CmdGoCar) (w : W) (line : string) :
  (length (Split line comma) < 5)%nat ->
  manifestRow cmdGoCar w line = Err ManifestFormatError.
Proof.
  intros H. unfold manifestRow.
  destruct (Nat.ltb_spec (length (Split line comma)) 5); [reflexivity | lia].
Qed.

Lemma manifestRow_long (cmdGoCar : CmdGoCar) (w : W) (line : string) :
  (5 <= length (Split line comma))%nat ->
  exists f0 f2 f3,
    nth_error (Split line comma) 0 = Some f0 /\
    nth_error (Split line comma) 2 = Some f2 /\
    nth_error (Split line comma) 3 = Some f3 /\
    manifestRow cmdGoCar w line =
      obind (Unmarshal (Join (skipn 4 (Split line comma)) ","))
        (fun manifestDetail =>
           obind (resolvePolicy cmdGoCar manifestDetail
                    (rowPrefix cmdGoCar f0 f2 f3))
             (fillChecksums cmdGoCar w)).
Proof.
  intros H. unfold manifestRow.
  destruct (Nat.ltb_spec (length (Split line comma)) 5); [lia|].
  destruct (@index_in_range _ (Split line comma) 0) as (f0 & N0 & I0); [lia|].
  destruct (@index_in_range _ (Split line comma) 2) as (f2 & N2 & I2); [lia|].
  destruct (@index_in_range _ (Split line comma) 3) as (f3 & N3 & I3); [lia|].
  exists f0, f2, f3. repeat split; try assumption.
  rewrite I0, I2, I3, (rejoinDetail_Join _ H). reflexivity.
Qed.

Lemma addLinkSizes_size (links : list ManifestLink) (d : FileDesc) :
  SourceFileSize (addLinkSizes links d) =
  fold_left add64 (map LinkSize links) (SourceFileSize d).
Proof.
  unfold addLinkSizes. revert d.
  induction links as [|l links IH]; intros d; simpl; [reflexivity|].
  now rewrite IH.
Qed.


Lemma addLinkSizes_other (links : list ManifestLink) (d : FileDesc) :
  same_archive_part d (addLinkSizes links d) /\
  SourceFileMd5 (addLinkSizes links d) = SourceFileMd5 d /\
  CarFileMd5 (addLinkSizes links d) = CarFileMd5 d.
Proof.
  unfold addLinkSizes. revert d.
  induction links as [|l links IH]; intros d; simpl.
  - unfold same_archive_part. repeat split.
  - destruct (IH (set_SourceFileSize (add64 (SourceFileSize d) (LinkSize l)) d))
      as (Hs & H1 & H2).
    unfold same_archive_part in *. simpl in *. intuition congruence.
Qed.

Lemma resolvePolicy_other (cmdGoCar : CmdGoCar) (md : ManifestDetail)
  (d d' : FileDesc) :
  resolvePolicy cmdGoCar md d = Ok d' ->
  same_archive_part d d' /\
  SourceFileMd5 d' = SourceFileMd5 d /\ CarFileMd5 d' = CarFileMd5 d.
Proof.
  unfold resolvePolicy. destruct (GocarFolderBased cmdGoCar); intros H.
  - inv_ok.
    destruct (addLinkSizes_other (Link md)
      (set_SourceFilePath (InputDir cmdGoCar)
         (set_SourceFileName (filepath_Base (InputDir cmdGoCar)) d)))
      as (Hs & H1 & H2).
    unfold same_archive_part in *. simpl in *. intuition congruence.
  - inv_ok. unfold same_archive_part. simpl. repeat split.
Qed.

(** The size the policy branch stores, per policy. *)
Lemma resolvePolicy_size (cmdGoCar : CmdGoCar) (md : ManifestDetail)
  (d d' : FileDesc) :
  resolvePolicy cmdGoCar md d = Ok d' ->
  if GocarFolderBased cmdGoCar then
    SourceFileSize d' =
    fold_left add64 (map LinkSize (Link md)) (SourceFileSize d)
  else
    exists link0 rest,
      Link md = link0 :: rest /\ SourceFileSize d' = LinkSize link0 /\
      SourceFileName d' = LinkName link0.
Proof.
  unfold resolvePolicy. destruct (GocarFolderBased cmdGoCar); intros H.
  - inv_ok. now rewrite addLinkSizes_size.
  - unfold index in H. destruct (Link md) as [|link0 rest]; simpl in H;
      [discriminate|].
    inv_ok. now exists link0, rest.
Qed.

Lemma resolvePolicy_empty_links (cmdGoCar : CmdGoCar) (md : ManifestDetail)
  (d : FileDesc) :
  GocarFolderBased cmdGoCar = false -> Link md = [] ->
  resolvePolicy cmdGoCar md d = Panic "index out of range".
Proof.
  intros Hp Hl. unfold resolvePolicy. now rewrite Hp, Hl.
Qed.

Lemma fillChecksums_other (cmdGoCar : CmdGoCar) (w : W) (d d' : FileDesc) :
  fillChecksums cmdGoCar w d = Ok d' ->
  same_archive_part d d' /\ SourceFileSize d' = SourceFileSize d /\
  SourceFileName d' = SourceFileName d /\
  (GenerateMd5 cmdGoCar = false -> d' = d).
Proof.
  unfold fillChecksums. destruct (GenerateMd5 cmdGoCar); intros H.
  - destruct (IsFileExistsFullPath (SourceFilePath d) w); inv_ok;
      unfold same_archive_part; simpl; repeat split; discriminate.
  - inv_ok. unfold same_archive_part. repeat split.
Qed.

End RowFacts.

(* ===================================================================== *)
(** ** Facts about the loop and the whole reconciliation                  *)
(* ===================================================================== *)

Section LoopFacts.
Context {W : Type} {sys : Sys W}.


Lemma manifestRows_ok (cmdGoCar : CmdGoCar) (w : W) (lines : list string) :
  forall acc ds,
    manifestRows cmdGoCar w lines acc = Ok ds ->
    exists new, ds = (acc ++ new)%list /\ Forall2 (row_ok cmdGoCar w) lines new.
Proof.
  induction lines as [|line rest IH]; intros acc ds H; simpl in H.
  - inv_ok. exists []. split; [now rewrite app_nil_r | constructor].
  - inv_ok. destruct (IH _ _ H) as (new & -> & HF).
    exists (a :: new). split.
    + unfold append. now rewrite <- app_assoc.
    + constructor; assumption.
Qed.

Lemma manifestRows_app (cmdGoCar : CmdGoCar) (w : W) (pre : list string) :
  forall new rest acc,
    Forall2 (row_ok cmdGoCar w) pre new ->
    manifestRows cmdGoCar w (pre ++ rest)%list acc =
    manifestRows cmdGoCar w rest (acc ++ new)%list.
Proof.
  induction pre as [|line pre IH]; intros new rest acc HF; inversion HF; subst.
  - now rewrite app_nil_r.
  - simpl. unfold row_ok in *.
    match goal with H : manifestRow _ _ line = Ok _ |- _ => rewrite H end.
    cbn [obind]. rewrite (IH _ rest _ H3). unfold append.
    now rewrite <- app_assoc.
Qed.

(** A line that does not reconcile makes the loop return no list. *)
Lemma manifestRows_bad_line (cmdGoCar : CmdGoCar) (w : W) (lines : list string) :
  forall acc line,
    In line lines -> is_ok (manifestRow cmdGoCar w line) = false ->
    is_ok (manifestRows cmdGoCar w lines acc) = false.
Proof.
  induction lines as [|l rest IH]; intros acc line Hin Hbad; [contradiction|].
  simpl. destruct Hin as [->|Hin].
  - destruct (manifestRow cmdGoCar w line); simpl in *; congruence.
  - destruct (manifestRow cmdGoCar w l); simpl; try reflexivity.
    now apply IH with line.
Qed.

Lemma reconcile_unfold (cmdGoCar : CmdGoCar) (w : W) (lines : list string) :
  ReadAllLines (OutputDir cmdGoCar) manifestFilename w = Ok lines ->
  createFilesDescFromManifest cmdGoCar w =
  match manifestRows cmdGoCar w (tl lines) [] with
  | Ok fileDescs =>
      match WriteCarFilesToFiles fileDescs (OutputDir cmdGoCar)
              JSON_FILE_NAME_CAR_UPLOAD CSV_FILE_NAME_CAR_UPLOAD w with
      | (Ok _, w') => (Ok fileDescs, w')
      | (Err e, w') => (Err e, w')
      | (Panic m, w') => (Panic m, w')
      end
  | Err e => (Err e, w)
  | Panic m => (Panic m, w)
  end.
Proof.
  intros HR. unfold createFilesDescFromManifest, bind, lift, ret.
  rewrite HR. destruct (manifestRows cmdGoCar w (tl lines) []); reflexivity.
Qed.

(** A successful reconciliation read the manifest and reconciled every
    data line, in order. *)
Lemma reconcile_ok_inv (cmdGoCar : CmdGoCar) (w w' : W) (ds : list FileDesc) :
  createFilesDescFromManifest cmdGoCar w = (Ok ds, w') ->
  exists lines,
    ReadAllLines (OutputDir cmdGoCar) manifestFilename w = Ok lines /\
    Forall2 (row_ok cmdGoCar w) (tl lines) ds.
Proof.
  intros H.
  destruct (ReadAllLines (OutputDir cmdGoCar) manifestFilename w)
    as [lines| |] eqn:HR.
  - rewrite (reconcile_unfold _ _ HR) in H. exists lines. split; [reflexivity|].
    destruct (manifestRows cmdGoCar w (tl lines) []) as [fds| |] eqn:HM;
      try discriminate.
    destruct (WriteCarFilesToFiles _ _ _ _ w) as [[?|?|?] ?];
      try discriminate.
    inversion H; subst.
    destruct (manifestRows_ok _ _ _ _ HM) as (new & -> & HF). exact HF.
  - unfold createFilesDescFromManifest, bind, lift in H. rewrite HR in H.
    discriminate.
  - unfold createFilesDescFromManifest, bind, lift in H. rewrite HR in H.
    discriminate.
Qed.

(** The same for the packaging operation, whose last step is the
    reconciliation. *)
Lemma CreateGoCarFiles_ok_inv (cmdGoCar : CmdGoCar) (w w' : W)
  (ds : list FileDesc) :
  CreateGoCarFiles cmdGoCar w = (Ok ds, w') ->
  exists w1, createFilesDescFromManifest cmdGoCar w1 = (Ok ds, w').
Proof.
  unfold CreateGoCarFiles, bind at 1.
  destruct (CreateDirIfNotExists _ _ w) as [[[]|?|?] w0]; try discriminate.
  destruct (GocarFileSizeLimit cmdGoCar <=? 0); [discriminate|].
  unfold bind at 1, lift.
  destruct (ReadDir (InputDir cmdGoCar) w0); try discriminate.
  unfold bind at 1.
  match goal with |- context [(if ?b then ?x else ?y) w0] =>
    destruct ((if b then x else y) w0) as [[[]|?|?] w1] end;
    try discriminate.
  intros H. now exists w1.
Qed.

End LoopFacts.


(* ===================================================================== *)
(** ** The reconciler: the rejoined detail, short rows                    *)
(* ===================================================================== *)

Section ReconcilerClaims.
Context {W : Type} {sys : Sys W}.

(** C1. For every raw manifest data line with at least 5 comma-separated
    fields, the string handed to the JSON decoder is the fields from index
    4 onward rejoined with the comma separator; it is the suffix of the
    line that begins at the fifth field: the line is its first four
    (comma-free) fields, a comma after each, followed by that string.  The
    row is then reconciled from the decoding of that string alone. *)
Theorem detail_is_rejoined_suffix (cmdGoCar : CmdGoCar) (w : W) (line : string) :
  (5 <= length (Split line comma))%nat ->
  exists carFileDetail d0,
    rejoinDetail (Split line comma) = Ok carFileDetail /\
    carFileDetail = Join (skipn 4 (Split line comma)) "," /\
    length (firstn 4 (Split line comma)) = 4%nat /\
    Forall (fun f => sep_free comma f = true) (firstn 4 (Split line comma)) /\
    line = (Join (firstn 4 (Split line comma)) "," ++ ",") ++ carFileDetail /\
    manifestRow cmdGoCar w line =
      obind (Unmarshal carFileDetail)
        (fun manifestDetail =>
           obind (resolvePolicy cmdGoCar manifestDetail d0)
             (fillChecksums cmdGoCar w)).
Proof.
  intros H.
  destruct (manifestRow_long cmdGoCar w line H) as (f0 & f2 & f3 & _ & _ & _ & HR).
  exists (Join (skipn 4 (Split line comma)) ","), (rowPrefix cmdGoCar f0 f2 f3).
  split; [now apply rejoinDetail_Join|].
  split; [reflexivity|].
  split; [rewrite length_firstn; lia|].
  split.
  { pose proof (Split_sep_free line comma) as HF.
    rewrite <- (firstn_skipn 4 (Split line comma)) in HF.
    now apply Forall_app in HF. }
  split; [|exact HR].
  rewrite append_assoc3.
  rewrite <- Join_app.
  - rewrite firstn_skipn. symmetry. apply (Join_Split line comma).
  - intros E. apply (f_equal (@length string)) in E.
    rewrite length_firstn in E. cbn [length] in E. lia.
  - intros E. apply (f_equal (@length string)) in E.
    rewrite length_skipn in E. cbn [length] in E. lia.
Qed.

(** C2. A raw manifest data line that splits into fewer than 5 fields is
    rejected with the format error; whatever the rows before it did, the
    reconciliation then returns no descriptor list and leaves the disk as
    it was (no catalog file is written); when the rows before it were
    reconciled, the error returned is that format error. *)
Theorem short_row_aborts_reconciliation (cmdGoCar : CmdGoCar) (w : W)
  (head : string) (pre post : list string) (line : string) :
  ReadAllLines (OutputDir cmdGoCar) manifestFilename w
    = Ok (head :: pre ++ line :: post)%list ->
  (length (Split line comma) < 5)%nat ->
  manifestRow cmdGoCar w line = Err ManifestFormatError /\
  (exists r, createFilesDescFromManifest cmdGoCar w = (r, w) /\ is_ok r = false) /\
  (forall ds, Forall2 (row_ok cmdGoCar w) pre ds ->
     createFilesDescFromManifest cmdGoCar w = (Err ManifestFormatError, w)).
Proof.
  intros HR Hshort.
  pose proof (manifestRow_short cmdGoCar w line Hshort) as Hrow.
  split; [exact Hrow|]. split.
  - rewrite (reconcile_unfold _ _ HR). cbn [tl].
    assert (Hbad : is_ok (manifestRows cmdGoCar w (pre ++ line :: post) []) = false).
    { apply manifestRows_bad_line with line.
      - apply in_or_app. right. now left.
      - now rewrite Hrow. }
    destruct (manifestRows cmdGoCar w (pre ++ line :: post) []);
      [discriminate Hbad | eexists; split; reflexivity
      | eexists; split; reflexivity].
  - intros ds Hpre. rewrite (reconcile_unfold _ _ HR). cbn [tl].
    rewrite (manifestRows_app (line :: post) [] Hpre).
    simpl. now rewrite Hrow.
Qed.

End ReconcilerClaims.

(* ===================================================================== *)
(** ** The reconciler: what a reconciled row holds                        *)
(* ===================================================================== *)


Lemma Forall2_Forall_r (A B : Type) (R : A -> B -> Prop) (P : B -> Prop) :
  (forall a b, R a b -> P b) ->
  forall l l', Forall2 R l l' -> Forall P l'.
Proof.
  intros HRP l l' HF. induction HF; constructor; eauto.
Qed.

Section RowClaims.
Context {W : Type} {sys : Sys W}.

(** A reconciled row, taken apart along the stages of the loop body. *)
Lemma row_ok_inv (cmdGoCar : CmdGoCar) (w : W) (line : string) (d : FileDesc) :
  row_ok cmdGoCar w line d ->
  exists f0 f2 f3 md d1,
    nth_error (Split line comma) 0 = Some f0 /\
    Unmarshal (detail_of line) = Ok md /\
    resolvePolicy cmdGoCar md (rowPrefix cmdGoCar f0 f2 f3) = Ok d1 /\
    fillChecksums cmdGoCar w d1 = Ok d.
Proof.
  unfold row_ok. intros H.
  destruct (Nat.lt_ge_cases (length (Split line comma)) 5) as [Hs|Hl].
  - rewrite (manifestRow_short cmdGoCar w line Hs) in H. discriminate.
  - destruct (manifestRow_long cmdGoCar w line Hl)
      as (f0 & f2 & f3 & N0 & _ & _ & HR).
    rewrite HR in H. fold (detail_of line) in H. inv_ok.
    now exists f0, f2, f3, a, a0.
Qed.

Lemma row_ok_size (cmdGoCar : CmdGoCar) (w : W) (line : string) (d : FileDesc) :
  row_ok cmdGoCar w line d ->
  exists md, Unmarshal (detail_of line) = Ok md /\
             size_rule (fun sizes => wrap64 (sumZ sizes)) cmdGoCar md d.
Proof.
  intros H.
  destruct (row_ok_inv H) as (f0 & f2 & f3 & md & d1 & _ & HU & HP & HC).
  exists md. split; [exact HU|].
  destruct (fillChecksums_other _ _ _ HC) as (_ & Hsz & _).
  pose proof (resolvePolicy_size _ _ _ HP) as HS.
  unfold size_rule. destruct (GocarFolderBased cmdGoCar).
  - rewrite Hsz, HS. simpl SourceFileSize.
    unfold link_sizes. apply fold_add64_sum.
    unfold in_int64, int64_min, int64_max. lia.
  - destruct HS as (link0 & rest & HL & HS & _).
    exists link0, rest. split; [exact HL | congruence].
Qed.

Lemma row_ok_archive (cmdGoCar : CmdGoCar) (w : W) (line : string) (d : FileDesc) :
  row_ok cmdGoCar w line d ->
  nth_error (Split line comma) 0 = Some (PayloadCid d) /\
  CarFileName d = PayloadCid d ++ ".car" /\ CarFileUrl d = CarFileName d.
Proof.
  intros H.
  destruct (row_ok_inv H) as (f0 & f2 & f3 & md & d1 & N0 & _ & HP & HC).
  destruct (fillChecksums_other _ _ _ HC)
    as ((_ & Hn & _ & Hu & _ & Hp & _) & _).
  destruct (resolvePolicy_other _ _ _ HP)
    as ((_ & Hn1 & _ & Hu1 & _ & Hp1 & _) & _).
  simpl in Hn1, Hu1, Hp1.
  rewrite Hn, Hu, Hp, Hn1, Hu1, Hp1. now split.
Qed.

Lemma row_ok_no_md5 (cmdGoCar : CmdGoCar) (w : W) (line : string) (d : FileDesc) :
  GenerateMd5 cmdGoCar = false ->
  row_ok cmdGoCar w line d ->
  SourceFileMd5 d = "" /\ CarFileMd5 d = "".
Proof.
  intros Hmd5 H.
  destruct (row_ok_inv H) as (f0 & f2 & f3 & md & d1 & _ & _ & HP & HC).
  destruct (fillChecksums_other _ _ _ HC) as (_ & _ & _ & Heq).
  rewrite (Heq Hmd5).
  destruct (resolvePolicy_other _ _ _ HP) as (_ & H1 & H2).
  now rewrite H1, H2.
Qed.

(** C5. For every descriptor produced by reconciliation, whatever the
    policy and the checksum setting, [CarFileName] is [PayloadCid]
    followed by [.car] and [CarFileUrl] equals [CarFileName]
    ([PayloadCid] being field 0 of the descriptor's manifest line). *)
Theorem archive_name_is_payload_car (cmdGoCar : CmdGoCar) (w w' : W)
  (ds : list FileDesc) :
  createFilesDescFromManifest cmdGoCar w = (Ok ds, w') ->
  Forall (fun d => CarFileName d = PayloadCid d ++ ".car" /\
                   CarFileUrl d = CarFileName d) ds /\
  exists lines,
    ReadAllLines (OutputDir cmdGoCar) manifestFilename w = Ok lines /\
    Forall2 (fun line d => nth_error (Split line comma) 0 = Some (PayloadCid d))
      (tl lines) ds.
Proof.
  intros H. destruct (reconcile_ok_inv _ _ H) as (lines & HR & HF). split.
  - apply Forall2_Forall_r with (2 := HF).
    intros line d Hrow. now destruct (row_ok_archive Hrow) as (_ & ? & ?).
  - exists lines. split; [exact HR|].
    apply Forall2_impl with (2 := HF).
    intros line d Hrow. now destruct (row_ok_archive Hrow) as (? & _).
Qed.

(** C7. When checksums are not requested ([GenerateMd5] false), every
    descriptor of a successful reconciliation has the empty string as
    [SourceFileMd5] and as [CarFileMd5]. *)
Theorem no_checksums_unless_requested (cmdGoCar : CmdGoCar) (w w' : W)
  (ds : list FileDesc) :
  GenerateMd5 cmdGoCar = false ->
  createFilesDescFromManifest cmdGoCar w = (Ok ds, w') ->
  Forall (fun d => SourceFileMd5 d = "" /\ CarFileMd5 d = "") ds.
Proof.
  intros Hmd5 H. destruct (reconcile_ok_inv _ _ H) as (lines & _ & HF).
  apply Forall2_Forall_r with (2 := HF).
  intros line d Hrow. now apply row_ok_no_md5 with cmdGoCar w line.
Qed.

(** C8. Under the per-entry policy ([GocarFolderBased] false), a manifest
    row whose decoded detail has an empty [Link] list makes the loop body
    index [Link[0]] out of range: the row panics instead of returning an
    error value, and a reconciliation that reaches the row panics with it,
    the disk untouched. *)
Theorem per_entry_empty_links_panics (cmdGoCar : CmdGoCar) (w : W)
  (line : string) (md : ManifestDetail) :
  GocarFolderBased cmdGoCar = false ->
  (5 <= length (Split line comma))%nat ->
  Unmarshal (detail_of line) = Ok md ->
  Link md = [] ->
  manifestRow cmdGoCar w line = Panic "index out of range" /\
  (forall e, manifestRow cmdGoCar w line <> Err e) /\
  (forall head pre post ds,
     ReadAllLines (OutputDir cmdGoCar) manifestFilename w
       = Ok (head :: pre ++ line :: post)%list ->
     Forall2 (row_ok cmdGoCar w) pre ds ->
     createFilesDescFromManifest cmdGoCar w = (Panic "index out of range", w)).
Proof.
  intros Hpol Hlen HU Hnil.
  assert (Hrow : manifestRow cmdGoCar w line = Panic "index out of range").
  { destruct (manifestRow_long cmdGoCar w line Hlen)
      as (f0 & f2 & f3 & _ & _ & _ & HR).
    rewrite HR. fold (detail_of line). rewrite HU. cbn [obind].
    now rewrite (resolvePolicy_empty_links _ _ _ Hpol Hnil). }
  split; [exact Hrow|]. split; [intros e; rewrite Hrow; discriminate|].
  intros head pre post ds HR Hpre.
  rewrite (reconcile_unfold _ _ HR). cbn [tl].
  rewrite (manifestRows_app (line :: post) [] Hpre).
  simpl. now rewrite Hrow.
Qed.

End RowClaims.

(** C3 (as amended). For every successfully reconciled manifest row: under
    the whole-directory policy [SourceFileSize] is the sum of the sizes of
    all links of the row's decoded detail reduced to [int64] (so it is the
    sum itself whenever the sum is within the [int64] range), and under
    the per-entry policy it is the size of the first link. *)
Theorem source_size_per_policy :
  size_rule_holds (fun sizes => wrap64 (sumZ sizes)) /\
  (forall sizes, in_int64 (sumZ sizes) -> wrap64 (sumZ sizes) = sumZ sizes).
Proof.
  split.
  - intros W sys cmdGoCar w w' ds H.
    destruct (reconcile_ok_inv _ _ H) as (lines & HR & HF).
    exists lines. split; [exact HR|].
    apply Forall2_impl with (2 := HF).
    intros line d Hrow. now apply row_ok_size with w.
  - intros sizes. apply wrap64_id.
Qed.

(* ===================================================================== *)
(** ** The tabular export                                                 *)
(* ===================================================================== *)

Section ExportFacts.
Context {W : Type} {sys : Sys W}.
Local Open Scope go_scope.


Lemma writeCarFileRows_records (path : string) (carFiles : list FileDesc) (w : W) :
  writeCarFileRows path carFiles w =
  writeRecords path (map csvColumns carFiles) w.
Proof.
  revert w. induction carFiles as [|carFile rest IH]; intros w; [reflexivity|].
  simpl. unfold bind. destruct (csv_Write path (csvColumns carFile) w)
    as [[[]|?|?] w1]; [apply IH | reflexivity | reflexivity].
Qed.

Lemma csvColumns_length (carFile : FileDesc) :
  length (csvColumns carFile) = 15%nat.
Proof.
  unfold csvColumns.
  destruct (StartEpoch carFile), (SourceId carFile); reflexivity.
Qed.

End ExportFacts.


(** C4 (as amended). For every descriptor list, the tabular export's first
    row is a header of exactly 15 columns in exactly this order: uuid,
    source_file_name, source_file_path, source_file_md5, source_file_size,
    car_file_name, car_file_path, car_file_md5, car_file_url,
    car_file_size, pay_load_cid, piece_cid, start_epoch, source_id, deals;
    and every data row has exactly 15 columns. *)
Theorem export_has_uuid_header :
  export_schema
    ["uuid"; "source_file_name"; "source_file_path"; "source_file_md5";
     "source_file_size"; "car_file_name"; "car_file_path"; "car_file_md5";
     "car_file_url"; "car_file_size"; "pay_load_cid"; "piece_cid";
     "start_epoch"; "source_id"; "deals"].
Proof.
  intros W sys carFiles outDir csvFileName w.
  exists (map csvColumns carFiles). repeat split.
  - unfold WriteCarFilesToCsvFile, bind.
    destruct (os_Create (filepath_Join outDir csvFileName) w)
      as [[[]|?|?] w1]; try reflexivity.
    cbn [writeRecords]. unfold bind.
    change (append _ "deals") with csvHeaders.
    destruct (csv_Write (filepath_Join outDir csvFileName) _ w1)
      as [[[]|?|?] w2]; try reflexivity.
    apply writeCarFileRows_records.
  - now rewrite length_map.
  - apply Forall_forall. intros record Hin.
    apply in_map_iff in Hin. destruct Hin as (carFile & <- & _).
    apply csvColumns_length.
Qed.

(* ===================================================================== *)
(** ** The packaging and restore orchestrators                            *)
(* ===================================================================== *)


(** C6 (as amended). For every configuration with a size limit [<= 0] the
    packaging operation fails and returns no descriptors, independently of
    the input directory's contents: it does exactly what ensuring the
    output directory followed by the configuration error does, so the
    error is the configuration error whenever the output directory could
    be ensured (that step comes first, and its own failure comes out
    instead). *)
Theorem nonpositive_limit_fails (W : Type) (sys : Sys W) (cmdGoCar : CmdGoCar)
  (w : W) :
  GocarFileSizeLimit cmdGoCar <= 0 ->
  CreateGoCarFiles cmdGoCar w =
    bind (CreateDirIfNotExists (OutputDir cmdGoCar) DIR_NAME_OUTPUT)
      (fun _ => fail ConfigurationError) w /\
  is_ok (fst (CreateGoCarFiles cmdGoCar w)) = false /\
  (forall w1,
     CreateDirIfNotExists (OutputDir cmdGoCar) DIR_NAME_OUTPUT w = (Ok tt, w1) ->
     CreateGoCarFiles cmdGoCar w = (Err ConfigurationError, w1)).
Proof.
  intros Hlim.
  assert (HE : CreateGoCarFiles cmdGoCar w =
               bind (CreateDirIfNotExists (OutputDir cmdGoCar) DIR_NAME_OUTPUT)
                 (fun _ => fail ConfigurationError) w).
  { unfold CreateGoCarFiles, bind.
    destruct (CreateDirIfNotExists _ _ w) as [[[]|?|?] w0]; try reflexivity.
    destruct (Z.leb_spec (GocarFileSizeLimit cmdGoCar) 0); [reflexivity | lia]. }
  split; [exact HE|]. rewrite HE. unfold bind, fail. split.
  - destruct (CreateDirIfNotExists _ _ w) as [[[]|?|?] w0]; reflexivity.
  - intros w1 H1. now rewrite H1.
Qed.

(** C9. The restore operation returns an error exactly when ensuring the
    output directory returns one; once that validation succeeds it reports
    success, on the disk left by the extract and merge primitives, whose
    outcomes it never observes: replacing every collaborator but the
    directory check cannot change what restore returns. *)
Theorem restore_fails_iff_validation_fails (W : Type) (sys : Sys W)
  (cmdGoCar : CmdGoCar) (w : W) :
  (forall e,
     fst (RestoreCarToFiles cmdGoCar w) = Err e <->
     fst (CreateDirIfNotExists (OutputDir cmdGoCar) DIR_NAME_OUTPUT w) = Err e) /\
  (forall w1,
     CreateDirIfNotExists (OutputDir cmdGoCar) DIR_NAME_OUTPUT w = (Ok tt, w1) ->
     RestoreCarToFiles cmdGoCar w =
       (Ok tt,
        Merge (OutputDir cmdGoCar) (Parallel cmdGoCar)
          (CarTo (InputDir cmdGoCar) (OutputDir cmdGoCar) (Parallel cmdGoCar)
             w1))) /\
  (forall sys' : Sys W,
     @CreateDirIfNotExists W sys' = @CreateDirIfNotExists W sys ->
     fst (@RestoreCarToFiles W sys' cmdGoCar w) =
     fst (@RestoreCarToFiles W sys cmdGoCar w)).
Proof.
  split; [|split].
  - intros e. unfold RestoreCarToFiles, bind.
    destruct (CreateDirIfNotExists _ _ w) as [[[]|?|?] w0]; simpl;
      split; intros H; (discriminate H || exact H).
  - intros w1 H1. unfold RestoreCarToFiles, bind. now rewrite H1.
  - intros sys' HD. unfold RestoreCarToFiles, bind. rewrite HD.
    destruct (CreateDirIfNotExists _ _ w) as [[[]|?|?] w0]; reflexivity.
Qed.

(* ===================================================================== *)
(** ** The remote-catalog client: the guard of [httpPost]                 *)
(* ===================================================================== *)

Section ClientFacts.
Context {N : Type} {remote : Client.Remote N}.

Lemma httpPost_unconfigured (m : Client.MetaClient) :
  Client.unconfigured m ->
  exists e, forall params n, Client.httpPost m params n = (Err e, n).
Proof.
  unfold Client.unconfigured, Client.httpPost.
  intros [Hk | [Ht | Hc]].
  - rewrite Hk. simpl. now eexists.
  - rewrite Ht. destruct (Client.key m =? "")%string; simpl; now eexists.
  - rewrite Hc.
    destruct ((Client.key m =? "") || (Client.token m =? ""))%string;
      now eexists.
Qed.

(** An operation that starts by posting fails where the post fails. *)
Lemma post_then_fails (A : Type) (m : Client.MetaClient)
  (params : Client.JsonRpcParams) (k : string -> M N A) :
  Client.unconfigured m ->
  forall n, exists e, bind (Client.httpPost m params) k n = (Err e, n).
Proof.
  intros Hu n. destruct (httpPost_unconfigured Hu) as (e & He).
  exists e. unfold bind. now rewrite He.
Qed.

(** C10. Whenever the client's key or token is the empty string, or no
    configuration has been set, each of [Backup], [List], [ListStatus],
    [SourceFileInfo], [DownloadFileInfo] and [Rebuild] fails with an error
    and leaves the network as it was: no request is issued. *)
Theorem unconfigured_client_sends_nothing (m : Client.MetaClient) (n : N) :
  Client.unconfigured m ->
  (forall datasetName ipfsDataList,
     exists e, Client.Backup m datasetName ipfsDataList n = (Err e, n)) /\
  (forall datasetName pageNum size,
     exists e, Client.List m datasetName pageNum size n = (Err e, n)) /\
  (forall datasetName ipfsCid pageNum size,
     exists e,
       Client.ListStatus m datasetName ipfsCid pageNum size n = (Err e, n)) /\
  (forall ipfsCid, exists e, Client.SourceFileInfo m ipfsCid n = (Err e, n)) /\
  (forall ipfsCid, exists e, Client.DownloadFileInfo m ipfsCid n = (Err e, n)) /\
  (forall datasetId ipfsCids,
     exists e, Client.Rebuild m datasetId ipfsCids n = (Err e, n)).
Proof.
  intros Hu. repeat split; intros.
  - unfold Client.Backup. destruct (length ipfsDataList =? 0)%nat.
    + now eexists.
    + now apply post_then_fails.
  - now apply post_then_fails.
  - now apply post_then_fails.
  - now apply post_then_fails.
  - now apply post_then_fails.
  - now apply post_then_fails.
Qed.

End ClientFacts.


(* ===================================================================== *)
(** ** Runs on the concrete world                                         *)
(* ===================================================================== *)

Section RunExamples.
Import Sim Runs.

Example reconcile_ab :
  fst (createFilesDescFromManifest (sys := S) folder_cmd w_ab) = Ok [d_ab].
Proof. reflexivity. Qed.

Example reconcile_ab_trace :
  trace (snd (createFilesDescFromManifest (sys := S) folder_cmd w_ab)) =
  [MadeDir "out"; WroteFile "out/car.json" "bafy1"; CreatedFile "out/car.csv";
   WroteRecord "out/car.csv" csvHeaders;
   WroteRecord "out/car.csv"
     [""; "data"; "in/data"; ""; "300"; "bafy1.car"; "out/bafy1.car"; "";
      "bafy1.car"; "1024"; "bafy1"; "baga1"; ""; ""; ""]].
Proof. reflexivity. Qed.

Example reconcile_huge :
  fst (createFilesDescFromManifest (sys := S) folder_cmd w_huge) = Ok [d_huge].
Proof. reflexivity. Qed.

Example split_short : Split line_short comma = ["bafy2"; "graph"; "baga2"; "5"].
Proof. reflexivity. Qed.

Example restore_run :
  RestoreCarToFiles (sys := S) entry_cmd (world []) =
  (Ok tt,
   mkWorld (Ok []) ["a"; "b"] true ["out/bafy1.car"; "out/bafy2.car"]
     [MadeDir "out"; Extracted "in/data" "out"; Merged "out"]).
Proof. reflexivity. Qed.

End RunExamples.

Section NetExamples.
Import SimNet.

Example ready_client_posts :
  Client.SourceFileInfo (remote := remote) ready "bafy1" [] =
  (Ok [], [("https://meta.example", "meta.GetSourceFileInfo")]).
Proof. reflexivity. Qed.

Example no_token_client_fails :
  Client.SourceFileInfo (remote := remote) no_token "bafy1" [] =
  (Err (errorString "key or token is required"), []).
Proof. reflexivity. Qed.

End NetExamples.

(** The rejoined detail of a concrete line whose JSON fragment holds
    commas. *)
Lemma detail_is_rejoined_suffix_witness :
  (5 <= length (Split Runs.line_a comma))%nat /\
  rejoinDetail (Split Runs.line_a comma) = Ok Sim.detail_a /\
  Runs.line_a = "bafy1,graph,baga1,1024," ++ Sim.detail_a.
Proof.
  assert (H : (5 <= length (Split Runs.line_a comma))%nat)
    by (vm_compute; lia).
  split; [exact H|].
  destruct (detail_is_rejoined_suffix (sys := Runs.S) Runs.entry_cmd
              (Sim.world []) Runs.line_a H)
    as (carFileDetail & d0 & H1 & H2 & _ & _ & H5 & _).
  split.
  - rewrite H1, H2. reflexivity.
  - rewrite H5 at 1. rewrite H2. reflexivity.
Defined.

(** A good row followed by a four-field row: the format error, and a
    disk without any catalog file. *)
Lemma short_row_aborts_reconciliation_witness :
  ReadAllLines (Sys := Runs.S) (OutputDir Runs.entry_cmd) manifestFilename
    Runs.w_short
    = Ok (Sim.header :: [Runs.line_a] ++ Runs.line_short :: [])%list /\
  (length (Split Runs.line_short comma) < 5)%nat /\
  createFilesDescFromManifest (sys := Runs.S) Runs.entry_cmd Runs.w_short
    = (Err ManifestFormatError, Runs.w_short).
Proof.
  assert (H1 : ReadAllLines (Sys := Runs.S) (OutputDir Runs.entry_cmd)
                 manifestFilename Runs.w_short
               = Ok (Sim.header :: [Runs.line_a] ++ Runs.line_short :: [])%list)
    by reflexivity.
  assert (H2 : (length (Split Runs.line_short comma) < 5)%nat)
    by (vm_compute; lia).
  split; [exact H1|]. split; [exact H2|].
  apply (@short_row_aborts_reconciliation _ Runs.S Runs.entry_cmd
           Runs.w_short Sim.header [Runs.line_a] [] Runs.line_short H1 H2)
    with [Runs.d_a].
  constructor; [reflexivity | constructor].
Defined.

(** Two links of 100 and 200 bytes under the whole-directory policy. *)
Lemma source_size_per_policy_witness :
  createFilesDescFromManifest (sys := Runs.S) Runs.folder_cmd Runs.w_ab
    = (Ok [Runs.d_ab],
       snd (createFilesDescFromManifest (sys := Runs.S) Runs.folder_cmd
              Runs.w_ab)) /\
  SourceFileSize Runs.d_ab = 100 + 200 /\
  exists lines,
    ReadAllLines (Sys := Runs.S) (OutputDir Runs.folder_cmd) manifestFilename
      Runs.w_ab = Ok lines /\
    Forall2
      (fun line d =>
         exists md, Unmarshal (Sys := Runs.S) (detail_of line) = Ok md /\
                    size_rule (fun sizes => wrap64 (sumZ sizes))
                      Runs.folder_cmd md d)
      (tl lines) [Runs.d_ab].
Proof.
  assert (H : createFilesDescFromManifest (sys := Runs.S) Runs.folder_cmd
                Runs.w_ab
              = (Ok [Runs.d_ab],
                 snd (createFilesDescFromManifest (sys := Runs.S)
                        Runs.folder_cmd Runs.w_ab)))
    by reflexivity.
  split; [exact H|]. split; [reflexivity|].
  exact (proj1 source_size_per_policy _ Runs.S _ _ _ _ H).
Defined.

(** The exact sum is not what a row always holds: two links of sizes
    [2^63 - 1] and [1] under the whole-directory policy leave [- 2^63] in
    [SourceFileSize]. *)
Lemma source_size_exact_sum_fails : ~ size_rule_holds sumZ.
Proof.
  intros Hclaim.
  destruct (Hclaim _ Runs.S Runs.folder_cmd Runs.w_huge
              (snd (createFilesDescFromManifest (sys := Runs.S)
                      Runs.folder_cmd Runs.w_huge))
              [Runs.d_huge] eq_refl)
    as (lines & HR & HF).
  change (Ok (A := list string)
            [Sim.header; Sim.row "bafy1" "baga1" "1024" Sim.detail_huge]
          = Ok lines) in HR.
  inversion HR; subst lines; clear HR. cbn [tl] in HF.
  inversion HF as [|line d ls ds (md & HU & Hrule) Hrest]; subst.
  assert (Hmd : md = Sim.md_huge).
  { vm_compute in HU. now inversion HU. }
  subst md. vm_compute in Hrule. discriminate Hrule.
Qed.

(** With [id] for its first column the header is not the one written. *)
Lemma export_header_is_not_id : ~ export_schema spec_header.
Proof.
  intros Hclaim.
  destruct (Hclaim _ Runs.S [] "out" "car.csv" (Sim.world []))
    as (records & HE & _ & HL & _).
  destruct records as [|record records]; [|discriminate HL].
  vm_compute in HE. discriminate HE.
Qed.

(** The archive name and url of a descriptor reconciled per entry. *)
Lemma archive_name_is_payload_car_witness :
  createFilesDescFromManifest (sys := Runs.S) Runs.entry_cmd
    (Sim.world [Sim.header; Runs.line_a])
    = (Ok [Runs.d_a],
       snd (createFilesDescFromManifest (sys := Runs.S) Runs.entry_cmd
              (Sim.world [Sim.header; Runs.line_a]))) /\
  Forall (fun d => CarFileName d = PayloadCid d ++ ".car" /\
                   CarFileUrl d = CarFileName d) [Runs.d_a].
Proof.
  assert (H : createFilesDescFromManifest (sys := Runs.S) Runs.entry_cmd
                (Sim.world [Sim.header; Runs.line_a])
              = (Ok [Runs.d_a],
                 snd (createFilesDescFromManifest (sys := Runs.S)
                        Runs.entry_cmd (Sim.world [Sim.header; Runs.line_a]))))
    by reflexivity.
  split; [exact H|].
  exact (proj1 (archive_name_is_payload_car (sys := Runs.S) _ _ H)).
Defined.

(** A reconciliation without checksums. *)
Lemma no_checksums_unless_requested_witness :
  GenerateMd5 Runs.folder_cmd = false /\
  createFilesDescFromManifest (sys := Runs.S) Runs.folder_cmd Runs.w_ab
    = (Ok [Runs.d_ab],
       snd (createFilesDescFromManifest (sys := Runs.S) Runs.folder_cmd
              Runs.w_ab)) /\
  Forall (fun d => SourceFileMd5 d = "" /\ CarFileMd5 d = "") [Runs.d_ab].
Proof.
  assert (H : createFilesDescFromManifest (sys := Runs.S) Runs.folder_cmd
                Runs.w_ab
              = (Ok [Runs.d_ab],
                 snd (createFilesDescFromManifest (sys := Runs.S)
                        Runs.folder_cmd Runs.w_ab)))
    by reflexivity.
  split; [reflexivity|]. split; [exact H|].
  exact (@no_checksums_unless_requested _ Runs.S Runs.folder_cmd Runs.w_ab _
           [Runs.d_ab] eq_refl H).
Defined.

(** A good row followed by a row without links, per entry: a panic, and
    a disk without any catalog file. *)
Lemma per_entry_empty_links_panics_witness :
  GocarFolderBased Runs.entry_cmd = false /\
  (5 <= length (Split Runs.line_none comma))%nat /\
  Unmarshal (Sys := Runs.S) (detail_of Runs.line_none) = Ok Sim.md_none /\
  Link Sim.md_none = [] /\
  createFilesDescFromManifest (sys := Runs.S) Runs.entry_cmd Runs.w_none
    = (Panic "index out of range", Runs.w_none).
Proof.
  assert (H2 : (5 <= length (Split Runs.line_none comma))%nat)
    by (vm_compute; lia).
  assert (H3 : Unmarshal (Sys := Runs.S) (detail_of Runs.line_none)
               = Ok Sim.md_none) by reflexivity.
  split; [reflexivity|]. split; [exact H2|]. split; [exact H3|].
  split; [reflexivity|].
  apply (proj2 (proj2 (@per_entry_empty_links_panics _ Runs.S Runs.entry_cmd
                         Runs.w_none Runs.line_none Sim.md_none
                         eq_refl H2 H3 eq_refl)))
    with Sim.header [Runs.line_a] [] [Runs.d_a].
  - reflexivity.
  - constructor; [reflexivity | constructor].
Defined.

(** A zero size limit on a disk where the output directory can be made:
    the directory is made, nothing else happens. *)
Lemma nonpositive_limit_fails_witness :
  GocarFileSizeLimit (Sim.cmd false false 0) <= 0 /\
  CreateGoCarFiles (sys := Runs.S) (Sim.cmd false false 0)
    (Sim.world [Sim.header])
  = (Err ConfigurationError,
     Sim.mkWorld (Ok [Sim.header]) ["a"; "b"] true
       ["out/bafy1.car"; "out/bafy2.car"] [Sim.MadeDir "out"]).
Proof.
  assert (H : GocarFileSizeLimit (Sim.cmd false false 0) <= 0)
    by (simpl; lia).
  split; [exact H|].
  apply (proj2 (proj2 (@nonpositive_limit_fails _ Runs.S
                         (Sim.cmd false false 0) (Sim.world [Sim.header]) H))).
  reflexivity.
Defined.

(** When the output directory cannot be made, a non-positive limit comes
    out as that failure, not as the configuration error. *)
Lemma nonpositive_limit_not_always_configuration_error :
  ~ size_limit_always_configuration_error.
Proof.
  intros Hclaim.
  destruct (Hclaim _ Runs.S (Sim.cmd false false 0) Runs.w_readonly)
    as (w' & H); [simpl; lia|].
  vm_compute in H. discriminate H.
Qed.


(** A client without token: no request leaves it. *)
Lemma unconfigured_client_sends_nothing_witness :
  Client.unconfigured SimNet.no_token /\
  (exists e,
     Client.Rebuild (remote := SimNet.remote) SimNet.no_token 1 ["bafy1"] []
     = (Err e, [])) /\
  (exists e,
     Client.Backup (remote := SimNet.remote) SimNet.no_token "set"
       [Client.mkIpfsData "bafy1" "a" 100 false "https://gw/ipfs/bafy1"] []
     = (Err e, [])).
Proof.
  assert (H : Client.unconfigured SimNet.no_token)
    by (right; left; reflexivity).
  split; [exact H|].
  destruct (@unconfigured_client_sends_nothing _ SimNet.remote
              SimNet.no_token [] H) as (HB & _ & _ & _ & _ & HRb).
  split; [apply HRb | apply HB].
Defined.

(* ===================================================================== *)
(** * Further properties                                                  *)
(* ===================================================================== *)

(* ===================================================================== *)
(** ** The reconciler, row by row                                         *)
(* ===================================================================== *)

Section MoreRowFacts.
Context {W : Type} {sys : Sys W}.

Lemma row_ok_fields (cmdGoCar : CmdGoCar) (w : W) (line : string) (d : FileDesc) :
  row_ok cmdGoCar w line d ->
  exists f0 f2 f3 md d1,
    nth_error (Split line comma) 0 = Some f0 /\
    nth_error (Split line comma) 2 = Some f2 /\
    nth_error (Split line comma) 3 = Some f3 /\
    Unmarshal (detail_of line) = Ok md /\
    resolvePolicy cmdGoCar md (rowPrefix cmdGoCar f0 f2 f3) = Ok d1 /\
    fillChecksums cmdGoCar w d1 = Ok d.
Proof.
  unfold row_ok. intros H.
  destruct (Nat.lt_ge_cases (length (Split line comma)) 5) as [Hs|Hl].
  - rewrite (manifestRow_short cmdGoCar w line Hs) in H. discriminate.
  - destruct (manifestRow_long cmdGoCar w line Hl)
      as (f0 & f2 & f3 & N0 & N2 & N3 & HR).
    rewrite HR in H. fold (detail_of line) in H. inv_ok.
    now exists f0, f2, f3, a, a0.
Qed.

Lemma resolvePolicy_source (cmdGoCar : CmdGoCar) (md : ManifestDetail)
  (d d' : FileDesc) :
  resolvePolicy cmdGoCar md d = Ok d' ->
  if GocarFolderBased cmdGoCar then
    SourceFileName d' = filepath_Base (InputDir cmdGoCar) /\
    SourceFilePath d' = InputDir cmdGoCar
  else
    exists link0 rest,
      Link md = link0 :: rest /\
      SourceFileName d' = LinkName link0 /\
      SourceFilePath d' = filepath_Join (InputDir cmdGoCar) (LinkName link0).
Proof.
  unfold resolvePolicy. destruct (GocarFolderBased cmdGoCar); intros H.
  - inv_ok. unfold addLinkSizes.
    set (d0 := set_SourceFilePath _ _).
    assert (HI : forall links x,
               SourceFileName (fold_left
                 (fun fileDesc link =>
                    set_SourceFileSize
                      (add64 (SourceFileSize fileDesc) (LinkSize link)) fileDesc)
                 links x) = SourceFileName x /\
               SourceFilePath (fold_left
                 (fun fileDesc link =>
                    set_SourceFileSize
                      (add64 (SourceFileSize fileDesc) (LinkSize link)) fileDesc)
                 links x) = SourceFilePath x).
    { induction links as [|l links IH]; intros x; simpl; [now split|].
      destruct (IH (set_SourceFileSize (add64 (SourceFileSize x) (LinkSize l)) x))
        as (-> & ->). now split. }
    destruct (HI (Link md) d0) as (-> & ->). now split.
  - unfold index in H. destruct (Link md) as [|link0 rest]; simpl in H;
      [discriminate|].
    inv_ok. now exists link0, rest.
Qed.

Lemma fillChecksums_source (cmdGoCar : CmdGoCar) (w : W) (d d' : FileDesc) :
  fillChecksums cmdGoCar w d = Ok d' ->
  SourceFilePath d' = SourceFilePath d.
Proof.
  unfold fillChecksums. destruct (GenerateMd5 cmdGoCar); intros H.
  - destruct (IsFileExistsFullPath (SourceFilePath d) w); inv_ok; reflexivity.
  - now inv_ok.
Qed.

Lemma fillChecksums_digests (cmdGoCar : CmdGoCar) (w : W) (d d' : FileDesc) :
  GenerateMd5 cmdGoCar = true ->
  fillChecksums cmdGoCar w d = Ok d' ->
  MD5sum (CarFilePath d) w = Ok (CarFileMd5 d') /\
  (if IsFileExistsFullPath (SourceFilePath d) w
   then MD5sum (SourceFilePath d) w = Ok (SourceFileMd5 d')
   else SourceFileMd5 d' = SourceFileMd5 d).
Proof.
  unfold fillChecksums. intros -> H.
  destruct (IsFileExistsFullPath (SourceFilePath d) w); inv_ok; simpl in *;
    now split.
Qed.

(** When every data line reconciles, the descriptors go to the writer and
    are returned if it succeeds. *)
Lemma reconcile_all_ok (cmdGoCar : CmdGoCar) (w : W) (lines : list string)
  (ds : list FileDesc) :
  ReadAllLines (OutputDir cmdGoCar) manifestFilename w = Ok lines ->
  Forall2 (row_ok cmdGoCar w) (tl lines) ds ->
  createFilesDescFromManifest cmdGoCar w =
  bind (WriteCarFilesToFiles ds (OutputDir cmdGoCar)
          JSON_FILE_NAME_CAR_UPLOAD CSV_FILE_NAME_CAR_UPLOAD)
    (fun _ => ret ds) w.
Proof.
  intros HR HF. rewrite (reconcile_unfold _ _ HR).
  pose proof (manifestRows_app [] [] HF) as HA.
  rewrite app_nil_r in HA. rewrite HA. reflexivity.
Qed.

Lemma reconcile_first_failure (cmdGoCar : CmdGoCar) (w : W) (head : string)
  (pre post : list string) (line : string) (ds : list FileDesc) (e : error) :
  ReadAllLines (OutputDir cmdGoCar) manifestFilename w
    = Ok (head :: pre ++ line :: post)%list ->
  Forall2 (row_ok cmdGoCar w) pre ds ->
  manifestRow cmdGoCar w line = Err e ->
  createFilesDescFromManifest cmdGoCar w = (Err e, w).
Proof.
  intros HR Hpre Hrow. rewrite (reconcile_unfold _ _ HR). cbn [tl].
  rewrite (manifestRows_app (line :: post) [] Hpre).
  simpl. now rewrite Hrow.
Qed.

End MoreRowFacts.

Section MoreReconcilerFacts.
Context {W : Type} {sys : Sys W}.

(** X1. A successful reconciliation returns one descriptor per data line
    of the manifest, in the manifest's order, and each descriptor takes
    [PieceCid] from field 2, [CarFileSize] from field 3 through
    [GetInt64FromStr], and [CarFilePath] from joining the output directory
    with [CarFileName]. *)
Theorem reconciled_rows_follow_manifest (cmdGoCar : CmdGoCar) (w w' : W)
  (ds : list FileDesc) :
  createFilesDescFromManifest cmdGoCar w = (Ok ds, w') ->
  exists lines,
    ReadAllLines (OutputDir cmdGoCar) manifestFilename w = Ok lines /\
    length ds = length (tl lines) /\
    Forall2
      (fun line d =>
         nth_error (Split line comma) 2 = Some (PieceCid d) /\
         (exists f3, nth_error (Split line comma) 3 = Some f3 /\
                     CarFileSize d = GetInt64FromStr f3) /\
         CarFilePath d = filepath_Join (OutputDir cmdGoCar) (CarFileName d))
      (tl lines) ds.
Proof.
  intros H. destruct (reconcile_ok_inv _ _ H) as (lines & HR & HF).
  exists lines. split; [exact HR|]. split.
  - symmetry. now apply Forall2_length with (1 := HF).
  - apply Forall2_impl with (2 := HF). intros line d Hrow.
    destruct (row_ok_fields Hrow)
      as (f0 & f2 & f3 & md & d1 & _ & N2 & N3 & _ & HP & HC).
    destruct (fillChecksums_other _ _ _ HC)
      as ((_ & Hn & Hpa & _ & Hsz & _ & Hpc & _) & _).
    destruct (resolvePolicy_other _ _ _ HP)
      as ((_ & Hn1 & Hpa1 & _ & Hsz1 & _ & Hpc1 & _) & _).
    simpl in Hn1, Hpa1, Hsz1, Hpc1.
    rewrite Hpc, Hpc1, Hsz, Hsz1, Hpa, Hpa1, Hn, Hn1.
    split; [exact N2|]. split; [now exists f3 | reflexivity].
Qed.

(** X2. No descriptor of a successful reconciliation carries an
    identifier, a start epoch or a source id: [Uuid] is empty and both
    pointers are [nil], so in the tabular export its first cell and its
    last three cells are empty. *)
Theorem identifier_and_schedule_never_set (cmdGoCar : CmdGoCar) (w w' : W)
  (ds : list FileDesc) :
  createFilesDescFromManifest cmdGoCar w = (Ok ds, w') ->
  Forall
    (fun d =>
       Uuid d = "" /\ StartEpoch d = None /\ SourceId d = None /\
       nth_error (csvColumns d) 0 = Some "" /\
       skipn 12 (csvColumns d) = [""; ""; ""])
    ds.
Proof.
  intros H. destruct (reconcile_ok_inv _ _ H) as (lines & _ & HF).
  apply Forall2_Forall_r with (2 := HF). intros line d Hrow.
  destruct (row_ok_fields Hrow)
    as (f0 & f2 & f3 & md & d1 & _ & _ & _ & _ & HP & HC).
  destruct (fillChecksums_other _ _ _ HC)
    as ((Hu & _ & _ & _ & _ & _ & _ & He & Hs) & _).
  destruct (resolvePolicy_other _ _ _ HP)
    as ((Hu1 & _ & _ & _ & _ & _ & _ & He1 & Hs1) & _).
  simpl in Hu1, He1, Hs1.
  assert (HU : Uuid d = "") by congruence.
  assert (HE : StartEpoch d = None) by congruence.
  assert (HS : SourceId d = None) by congruence.
  repeat split; try assumption.
  - unfold csvColumns. rewrite HU, HE, HS. reflexivity.
  - unfold csvColumns. rewrite HE, HS. reflexivity.
Qed.

(** X3. The source unit of every reconciled descriptor follows the
    policy: under the whole-directory policy its name is the base name of
    the input root and its path the input root itself; under the per-entry
    policy its name is the name of the first link of the row's detail and
    its path that name joined to the input root. *)
Theorem source_unit_per_policy (cmdGoCar : CmdGoCar) (w w' : W)
  (ds : list FileDesc) :
  createFilesDescFromManifest cmdGoCar w = (Ok ds, w') ->
  exists lines,
    ReadAllLines (OutputDir cmdGoCar) manifestFilename w = Ok lines /\
    Forall2
      (fun line d =>
         if GocarFolderBased cmdGoCar then
           SourceFileName d = filepath_Base (InputDir cmdGoCar) /\
           SourceFilePath d = InputDir cmdGoCar
         else
           exists md link0 rest,
             Unmarshal (detail_of line) = Ok md /\
             Link md = link0 :: rest /\
             SourceFileName d = LinkName link0 /\
             SourceFilePath d =
               filepath_Join (InputDir cmdGoCar) (LinkName link0))
      (tl lines) ds.
Proof.
  intros H. destruct (reconcile_ok_inv _ _ H) as (lines & HR & HF).
  exists lines. split; [exact HR|].
  apply Forall2_impl with (2 := HF). intros line d Hrow.
  destruct (row_ok_fields Hrow)
    as (f0 & f2 & f3 & md & d1 & _ & _ & _ & HU & HP & HC).
  destruct (fillChecksums_other _ _ _ HC) as (_ & _ & Hname & _).
  pose proof (fillChecksums_source _ _ _ HC) as Hpath.
  pose proof (resolvePolicy_source _ _ _ HP) as HS.
  destruct (GocarFolderBased cmdGoCar).
  - destruct HS as (H1 & H2). split; congruence.
  - destruct HS as (link0 & rest & HL & H1 & H2).
    exists md, link0, rest. repeat split; congruence.
Qed.

(** X4. When checksums are requested, every reconciled descriptor holds
    in [CarFileMd5] the digest of the file at its [CarFilePath], and in
    [SourceFileMd5] the digest of the file at its [SourceFilePath] when
    that file exists, the empty string when it does not (a missing source
    is skipped, not an error). *)
Theorem checksums_when_requested (cmdGoCar : CmdGoCar) (w w' : W)
  (ds : list FileDesc) :
  GenerateMd5 cmdGoCar = true ->
  createFilesDescFromManifest cmdGoCar w = (Ok ds, w') ->
  Forall
    (fun d =>
       MD5sum (CarFilePath d) w = Ok (CarFileMd5 d) /\
       (if IsFileExistsFullPath (SourceFilePath d) w
        then MD5sum (SourceFilePath d) w = Ok (SourceFileMd5 d)
        else SourceFileMd5 d = ""))
    ds.
Proof.
  intros Hmd5 H. destruct (reconcile_ok_inv _ _ H) as (lines & _ & HF).
  apply Forall2_Forall_r with (2 := HF). intros line d Hrow.
  destruct (row_ok_fields Hrow)
    as (f0 & f2 & f3 & md & d1 & _ & _ & _ & _ & HP & HC).
  destruct (fillChecksums_digests _ _ _ Hmd5 HC) as (Hcar & Hsrc).
  destruct (fillChecksums_other _ _ _ HC) as ((_ & _ & Hpa & _) & _).
  pose proof (fillChecksums_source _ _ _ HC) as Hpath.
  destruct (resolvePolicy_other _ _ _ HP) as (_ & Hm1 & _).
  simpl in Hm1. rewrite Hpa, Hpath. split; [exact Hcar|].
  destruct (IsFileExistsFullPath (SourceFilePath d1) w); congruence.
Qed.

(** X5. Reconciliation is all or nothing: a single data line that does
    not reconcile (error or panic) leaves no descriptor list and an
    untouched disk, and when every data line reconciles the run is the
    writing of the two catalog files for exactly those descriptors,
    followed by their return. *)
Theorem reconciliation_all_or_nothing (cmdGoCar : CmdGoCar) (w : W)
  (lines : list string) :
  ReadAllLines (OutputDir cmdGoCar) manifestFilename w = Ok lines ->
  (forall line,
     In line (tl lines) -> is_ok (manifestRow cmdGoCar w line) = false ->
     exists r, createFilesDescFromManifest cmdGoCar w = (r, w) /\
               is_ok r = false) /\
  (forall ds,
     Forall2 (row_ok cmdGoCar w) (tl lines) ds ->
     createFilesDescFromManifest cmdGoCar w =
     bind (WriteCarFilesToFiles ds (OutputDir cmdGoCar)
             JSON_FILE_NAME_CAR_UPLOAD CSV_FILE_NAME_CAR_UPLOAD)
       (fun _ => ret ds) w).
Proof.
  intros HR. split.
  - intros line Hin Hbad. rewrite (reconcile_unfold _ _ HR).
    pose proof (manifestRows_bad_line cmdGoCar w (tl lines) [] line Hin Hbad)
      as Hrows.
    destruct (manifestRows cmdGoCar w (tl lines) []);
      [discriminate Hrows | eexists; split; reflexivity
      | eexists; split; reflexivity].
  - intros ds HF. now apply reconcile_all_ok with lines.
Qed.

(** X6. A data line with at least 5 fields whose rejoined detail does not
    decode makes the row fail with the decoder's error; reached after
    rows that reconciled, it makes the reconciliation return that error,
    with no descriptors and the disk untouched, whatever follows it. *)
Theorem undecodable_detail_aborts (cmdGoCar : CmdGoCar) (w : W)
  (head : string) (pre post : list string) (line : string)
  (ds : list FileDesc) (e : error) :
  ReadAllLines (OutputDir cmdGoCar) manifestFilename w
    = Ok (head :: pre ++ line :: post)%list ->
  Forall2 (row_ok cmdGoCar w) pre ds ->
  (5 <= length (Split line comma))%nat ->
  Unmarshal (detail_of line) = Err e ->
  manifestRow cmdGoCar w line = Err e /\
  createFilesDescFromManifest cmdGoCar w = (Err e, w).
Proof.
  intros HR Hpre Hlen HU.
  assert (Hrow : manifestRow cmdGoCar w line = Err e).
  { destruct (manifestRow_long cmdGoCar w line Hlen)
      as (f0 & f2 & f3 & _ & _ & _ & HL).
    rewrite HL. fold (detail_of line). now rewrite HU. }
  split; [exact Hrow|]. now apply reconcile_first_failure with head pre post line ds.
Qed.

(** X7. A manifest with no data line (only its header, or no line at all)
    is no error: the reconciliation writes the two catalog files for the
    empty descriptor list and returns that list. *)
Theorem empty_manifest_writes_empty_catalog (cmdGoCar : CmdGoCar) (w : W)
  (lines : list string) :
  ReadAllLines (OutputDir cmdGoCar) manifestFilename w = Ok lines ->
  (length lines <= 1)%nat ->
  createFilesDescFromManifest cmdGoCar w =
  bind (WriteCarFilesToFiles [] (OutputDir cmdGoCar)
          JSON_FILE_NAME_CAR_UPLOAD CSV_FILE_NAME_CAR_UPLOAD)
    (fun _ => ret []) w.
Proof.
  intros HR Hlen. apply reconcile_all_ok with lines; [exact HR|].
  destruct lines as [|head [|line rest]]; simpl in *; [constructor | constructor | lia].
Qed.

End MoreReconcilerFacts.

(* ===================================================================== *)
(** ** The metadata writer, stage by stage                                *)
(* ===================================================================== *)

Lemma FormatInt_not_empty (z : Z) : FormatInt z <> "".
Proof.
  unfold FormatInt. destruct (Z.to_int z) as [d|d]; simpl.
  - destruct d; discriminate.
  - discriminate.
Qed.

Section MoreWriterFacts.
Context {W : Type} {sys : Sys W}.




(** X9. In a record of the tabular export the two size cells are never
    empty, the [start_epoch] cell is empty exactly when [StartEpoch] is
    [nil], the [source_id] cell is empty exactly when [SourceId] is [nil]
    (a present value, zero included, is written in decimal), and the
    [deals] cell is always empty. *)
Theorem absent_cells_are_empty (carFile : FileDesc) :
  nth_error (csvColumns carFile) 4 = Some (FormatInt (SourceFileSize carFile)) /\
  nth_error (csvColumns carFile) 9 = Some (FormatInt (CarFileSize carFile)) /\
  FormatInt (SourceFileSize carFile) <> "" /\
  FormatInt (CarFileSize carFile) <> "" /\
  (nth_error (csvColumns carFile) 12 = Some "" <-> StartEpoch carFile = None) /\
  (nth_error (csvColumns carFile) 13 = Some "" <-> SourceId carFile = None) /\
  nth_error (csvColumns carFile) 14 = Some "".
Proof.
  unfold csvColumns.
  destruct (StartEpoch carFile) as [e|], (SourceId carFile) as [i|]; simpl;
    repeat split; try apply FormatInt_not_empty; try reflexivity;
    try discriminate; intros H; inversion H;
    match goal with
    | H' : FormatInt _ = "" |- _ => now apply FormatInt_not_empty in H'
    | H' : Itoa _ = "" |- _ => now apply FormatInt_not_empty in H'
    end.
Qed.


End MoreWriterFacts.

(* ===================================================================== *)
(** ** The packaging operation, step by step                              *)
(* ===================================================================== *)

Section MorePackagingFacts.
Context {W : Type} {sys : Sys W}.

Lemma chunkEntries_jobs (cmdGoCar : CmdGoCar) (srcFiles : list string) (w : W) :
  chunkEntries cmdGoCar (GocarFileSizeLimit cmdGoCar) (OutputDir cmdGoCar)
    srcFiles w =
  runJobs cmdGoCar
    (map (fun srcFile => (filepath_Join (InputDir cmdGoCar) srcFile, srcFile))
       srcFiles) w.
Proof.
  revert w. induction srcFiles as [|srcFile rest IH]; intros w; [reflexivity|].
  simpl. unfold bind.
  destruct (ChunkMulti _ _ _ _ _ _ w) as [[[]|?|?] w1];
    [apply IH | reflexivity | reflexivity].
Qed.

Lemma runJobs_app (cmdGoCar : CmdGoCar) (pre post : list (string * string))
  (w : W) :
  runJobs cmdGoCar (pre ++ post)%list w =
  bind (runJobs cmdGoCar pre) (fun _ => runJobs cmdGoCar post) w.
Proof.
  revert w. induction pre as [|[parentPath graphName] pre IH]; intros w;
    [reflexivity|].
  simpl. unfold bind in *.
  destruct (ChunkMulti _ _ _ _ _ _ w) as [[[]|?|?] w1];
    [apply IH | reflexivity | reflexivity].
Qed.

(** With a positive limit, an output directory and a listed input root,
    packaging is the slicing jobs followed by the reconciliation. *)
Lemma CreateGoCarFiles_jobs (cmdGoCar : CmdGoCar) (w w0 : W)
  (srcFiles : list string) :
  0 < GocarFileSizeLimit cmdGoCar ->
  CreateDirIfNotExists (OutputDir cmdGoCar) DIR_NAME_OUTPUT w = (Ok tt, w0) ->
  ReadDir (InputDir cmdGoCar) w0 = Ok srcFiles ->
  CreateGoCarFiles cmdGoCar w =
  bind (runJobs cmdGoCar (sliceJobs cmdGoCar srcFiles))
    (fun _ => createFilesDescFromManifest cmdGoCar) w0.
Proof.
  intros Hlim HD HR. unfold CreateGoCarFiles. unfold bind at 1. rewrite HD.
  destruct (Z.leb_spec (GocarFileSizeLimit cmdGoCar) 0); [lia|].
  unfold bind at 1. unfold lift. rewrite HR.
  unfold sliceJobs, bind.
  destruct (GocarFolderBased cmdGoCar).
  - simpl. unfold bind.
    destruct (ChunkMulti _ _ _ _ _ _ w0) as [[[]|?|?] w1]; reflexivity.
  - now rewrite chunkEntries_jobs.
Qed.

End MorePackagingFacts.

Section MorePackagingClaims.
Context {W : Type} {sys : Sys W}.

(** X11. A packaging run that returns descriptors had a positive size
    limit, could ensure the output directory and list the input root, ran
    every slicing job of its policy successfully, and returns exactly what
    the reconciliation of the disk the slicer left returns. *)
Theorem packaging_success_stages (cmdGoCar : CmdGoCar) (w w' : W)
  (ds : list FileDesc) :
  CreateGoCarFiles cmdGoCar w = (Ok ds, w') ->
  0 < GocarFileSizeLimit cmdGoCar /\
  exists w0 srcFiles w1,
    CreateDirIfNotExists (OutputDir cmdGoCar) DIR_NAME_OUTPUT w = (Ok tt, w0) /\
    ReadDir (InputDir cmdGoCar) w0 = Ok srcFiles /\
    runJobs cmdGoCar (sliceJobs cmdGoCar srcFiles) w0 = (Ok tt, w1) /\
    createFilesDescFromManifest cmdGoCar w1 = (Ok ds, w').
Proof.
  intros H.
  destruct (CreateDirIfNotExists (OutputDir cmdGoCar) DIR_NAME_OUTPUT w)
    as [[[]|?|?] w0] eqn:HD;
    try (unfold CreateGoCarFiles, bind in H; rewrite HD in H; discriminate H).
  destruct (Z.leb_spec (GocarFileSizeLimit cmdGoCar) 0) as [Hle|Hlt].
  { unfold CreateGoCarFiles, bind in H. rewrite HD in H.
    destruct (Z.leb_spec (GocarFileSizeLimit cmdGoCar) 0); [|lia].
    discriminate H. }
  split; [exact Hlt|].
  destruct (ReadDir (InputDir cmdGoCar) w0) as [srcFiles| |] eqn:HR.
  - rewrite (CreateGoCarFiles_jobs _ _ Hlt HD HR) in H. unfold bind in H.
    destruct (runJobs cmdGoCar (sliceJobs cmdGoCar srcFiles) w0)
      as [[[]|?|?] w1] eqn:HJ; try discriminate H.
    now exists w0, srcFiles, w1.
  - unfold CreateGoCarFiles, bind, lift in H. rewrite HD in H.
    destruct (Z.leb_spec (GocarFileSizeLimit cmdGoCar) 0); [lia|].
    rewrite HR in H. discriminate H.
  - unfold CreateGoCarFiles, bind, lift in H. rewrite HD in H.
    destruct (Z.leb_spec (GocarFileSizeLimit cmdGoCar) 0); [lia|].
    rewrite HR in H. discriminate H.
Qed.

(** X12. A slicer failure aborts the packaging run at once: when the jobs
    before a job succeeded and the slicer fails on that job, the run
    returns the slicer's error on the disk as that failure left it; the
    jobs after it are not run and the manifest is not reconciled. *)
Theorem slicer_failure_aborts_packaging (cmdGoCar : CmdGoCar) (w w0 w1 w2 : W)
  (srcFiles : list string) (pre post : list (string * string))
  (parentPath graphName : string) (e : error) :
  0 < GocarFileSizeLimit cmdGoCar ->
  CreateDirIfNotExists (OutputDir cmdGoCar) DIR_NAME_OUTPUT w = (Ok tt, w0) ->
  ReadDir (InputDir cmdGoCar) w0 = Ok srcFiles ->
  sliceJobs cmdGoCar srcFiles = (pre ++ (parentPath, graphName) :: post)%list ->
  runJobs cmdGoCar pre w0 = (Ok tt, w1) ->
  ChunkMulti (GocarFileSizeLimit cmdGoCar) parentPath [parentPath]
    (OutputDir cmdGoCar) graphName (Parallel cmdGoCar) w1 = (Err e, w2) ->
  CreateGoCarFiles cmdGoCar w = (Err e, w2).
Proof.
  intros Hlim HD HR HJ Hpre Hfail.
  rewrite (CreateGoCarFiles_jobs _ _ Hlim HD HR), HJ.
  unfold bind at 1. rewrite runJobs_app. unfold bind at 1. rewrite Hpre.
  simpl. unfold bind. now rewrite Hfail.
Qed.

(** X13. When the input root cannot be listed the packaging run returns
    that error right after ensuring the output directory, under either
    policy: the whole-directory policy, which never uses the listing,
    fails on it too, and the slicer is never started. *)
Theorem unlisted_input_aborts_packaging (cmdGoCar : CmdGoCar) (w w0 : W)
  (e : error) :
  0 < GocarFileSizeLimit cmdGoCar ->
  CreateDirIfNotExists (OutputDir cmdGoCar) DIR_NAME_OUTPUT w = (Ok tt, w0) ->
  ReadDir (InputDir cmdGoCar) w0 = Err e ->
  CreateGoCarFiles cmdGoCar w = (Err e, w0).
Proof.
  intros Hlim HD HR. unfold CreateGoCarFiles, bind, lift. rewrite HD.
  destruct (Z.leb_spec (GocarFileSizeLimit cmdGoCar) 0); [lia|].
  now rewrite HR.
Qed.

(** X14. With a positive limit, an output directory and a listed input
    root, the packaging run is its slicing jobs in order followed by the
    reconciliation; there is one job under the whole-directory policy,
    for the root under its base name and whatever the root holds, and one
    job per entry otherwise, for the entry's path under the entry's name
    (so none for an empty root, which goes straight to reconciliation). *)
Theorem packaging_slices_per_policy (cmdGoCar : CmdGoCar) (w w0 : W)
  (srcFiles : list string) :
  0 < GocarFileSizeLimit cmdGoCar ->
  CreateDirIfNotExists (OutputDir cmdGoCar) DIR_NAME_OUTPUT w = (Ok tt, w0) ->
  ReadDir (InputDir cmdGoCar) w0 = Ok srcFiles ->
  CreateGoCarFiles cmdGoCar w =
    bind (runJobs cmdGoCar (sliceJobs cmdGoCar srcFiles))
      (fun _ => createFilesDescFromManifest cmdGoCar) w0 /\
  (GocarFolderBased cmdGoCar = true ->
   sliceJobs cmdGoCar srcFiles =
     [(InputDir cmdGoCar, filepath_Base (InputDir cmdGoCar))]) /\
  (GocarFolderBased cmdGoCar = false ->
   map snd (sliceJobs cmdGoCar srcFiles) = srcFiles /\
   map fst (sliceJobs cmdGoCar srcFiles) =
     map (filepath_Join (InputDir cmdGoCar)) srcFiles /\
   (srcFiles = [] ->
    CreateGoCarFiles cmdGoCar w = createFilesDescFromManifest cmdGoCar w0)).
Proof.
  intros Hlim HD HR.
  pose proof (CreateGoCarFiles_jobs _ _ Hlim HD HR) as HE.
  split; [exact HE|]. unfold sliceJobs in *. split.
  - now intros ->.
  - intros Hp. rewrite Hp in *. rewrite !map_map. simpl.
    split; [now rewrite map_id|]. split; [reflexivity|].
    intros ->. rewrite HE. simpl. unfold bind, ret.
    destruct (createFilesDescFromManifest cmdGoCar w0) as [[?|?|?] ?];
      reflexivity.
Qed.

End MorePackagingClaims.

(* ===================================================================== *)
(** ** The client: builders, the guard and the answers                    *)
(* ===================================================================== *)

(** X15. The three [With...] builders keep the key and the token, always
    leave a configuration behind, keep the fields they do not set, and
    commute with one another; setting the meta server twice keeps the
    last url. *)
Theorem builders_keep_what_they_do_not_set (c : Client.MetaClient)
  (url url' api gateway : string) (aria2 : option Client.Aria2Conf) :
  let cnf := Client.conf_or_zero c in
  Client.conf (Client.WithMetaServer c url)
    = Some (Client.mkMetaConf url (Client.IpfsApi cnf) (Client.IpfsGateway cnf)
              (Client.Aria2 cnf)) /\
  Client.conf (Client.WithIpfs c api gateway)
    = Some (Client.mkMetaConf (Client.MetaServer cnf) api gateway
              (Client.Aria2 cnf)) /\
  Client.conf (Client.WithAria2Conf c aria2)
    = Some (Client.mkMetaConf (Client.MetaServer cnf) (Client.IpfsApi cnf)
              (Client.IpfsGateway cnf) aria2) /\
  Client.key (Client.WithMetaServer c url) = Client.key c /\
  Client.token (Client.WithMetaServer c url) = Client.token c /\
  Client.key (Client.WithIpfs c api gateway) = Client.key c /\
  Client.token (Client.WithIpfs c api gateway) = Client.token c /\
  Client.key (Client.WithAria2Conf c aria2) = Client.key c /\
  Client.token (Client.WithAria2Conf c aria2) = Client.token c /\
  Client.WithIpfs (Client.WithMetaServer c url) api gateway
    = Client.WithMetaServer (Client.WithIpfs c api gateway) url /\
  Client.WithAria2Conf (Client.WithMetaServer c url) aria2
    = Client.WithMetaServer (Client.WithAria2Conf c aria2) url /\
  Client.WithAria2Conf (Client.WithIpfs c api gateway) aria2
    = Client.WithIpfs (Client.WithAria2Conf c aria2) api gateway /\
  Client.WithMetaServer (Client.WithMetaServer c url) url'
    = Client.WithMetaServer c url'.
Proof.
  destruct c as [k t [cnf|]]; cbv zeta; repeat split.
Qed.

Section MoreClientFacts.
Context {N : Type} {remote : Client.Remote N}.

Lemma httpPost_configured (m : Client.MetaClient) (cnf : Client.MetaConf)
  (params : Client.JsonRpcParams) (n : N) :
  Client.key m <> "" -> Client.token m <> "" -> Client.conf m = Some cnf ->
  Client.httpPost m params n =
  Client.httpRequestWithKey Client.http_MethodPost (Client.MetaServer cnf)
    (Client.key m) (Client.token m) params n.
Proof.
  intros Hk Ht Hc. unfold Client.httpPost.
  destruct (String.eqb_spec (Client.key m) ""); [contradiction|].
  destruct (String.eqb_spec (Client.token m) ""); [contradiction|].
  simpl. now rewrite Hc.
Qed.

Lemma decodeResult_settle (D : Type)
  (decode : string -> outcome (Client.RpcResult D))
  (c : M N string) (n : N) :
  bind c (fun response => Client.decodeResult decode response) n =
  Transfer.settle decode (c n).
Proof.
  unfold bind, Transfer.settle, Client.decodeResult, bind, lift, fail, ret.
  destruct (c n) as [[response|?|?] n1]; try reflexivity.
  destruct (decode response) as [res|?|?]; try reflexivity.
  destruct (String.eqb (Client.Code res) "success"); reflexivity.
Qed.

(** X16. The guard tests the configuration, not the server url: a client
    with credentials and no configuration, once given only ipfs or only
    aria2 settings, has a configuration whose meta server is empty, and
    its requests are sent, to the empty url. *)
Theorem settings_without_server_post_to_empty_url (c : Client.MetaClient) :
  Client.key c <> "" -> Client.token c <> "" -> Client.conf c = None ->
  (forall api gateway params n,
     Client.httpPost (Client.WithIpfs c api gateway) params n =
     Client.httpRequestWithKey Client.http_MethodPost "" (Client.key c)
       (Client.token c) params n) /\
  (forall aria2 params n,
     Client.httpPost (Client.WithAria2Conf c aria2) params n =
     Client.httpRequestWithKey Client.http_MethodPost "" (Client.key c)
       (Client.token c) params n).
Proof.
  intros Hk Ht Hc. split; intros.
  - rewrite (@httpPost_configured (Client.WithIpfs c api gateway)
               (Client.mkMetaConf "" api gateway None)); try assumption.
    + reflexivity.
    + unfold Client.WithIpfs, Client.conf_or_zero. now rewrite Hc.
  - rewrite (@httpPost_configured (Client.WithAria2Conf c aria2)
               (Client.mkMetaConf "" "" "" aria2)); try assumption.
    + reflexivity.
    + unfold Client.WithAria2Conf, Client.conf_or_zero. now rewrite Hc.
Qed.

(** X17. For a client that passes the guard, each catalog operation sends
    one POST with its own method name, version 2.0 and id 1, and settles
    the answer the same way: the decoded data when the code is [success],
    an error carrying the server's message when it is not, and the
    transport's or the decoder's error as it is.  [Backup] does so for a
    non-empty list only: with no data it fails before sending, whatever
    the client. *)
Theorem operations_settle_answers (m : Client.MetaClient)
  (cnf : Client.MetaConf) (n : N) :
  Client.key m <> "" -> Client.token m <> "" -> Client.conf m = Some cnf ->
  let url := Client.MetaServer cnf in
  (forall datasetName data rest,
     Client.Backup m datasetName (data :: rest) n =
     Transfer.settle Client.Unmarshal_StoreSourceFileResponse
       (Transfer.post m url "meta.StoreSourceFile"
          [Client.P_string datasetName; Client.P_IpfsDataList (data :: rest)] n)) /\
  (forall (m' : Client.MetaClient) datasetName,
     Client.Backup m' datasetName [] n
     = (Err (errors_New "ipfsData is required"), n)) /\
  (forall datasetName pageNum size,
     Client.List m datasetName pageNum size n =
     Transfer.settle Client.Unmarshal_DatasetListResponse
       (Transfer.post m url "meta.GetDatasetList"
          [Client.P_DatasetListReq datasetName pageNum size] n)) /\
  (forall datasetName ipfsCid pageNum size,
     Client.ListStatus m datasetName ipfsCid pageNum size n =
     Transfer.settle Client.Unmarshal_SourceFileStatusResponse
       (Transfer.post m url "meta.GetSourceFileStatus"
          [Client.P_SourceFileStatusReq datasetName ipfsCid pageNum size] n)) /\
  (forall ipfsCid,
     Client.SourceFileInfo m ipfsCid n =
     Transfer.settle Client.Unmarshal_SourceFileInfoResponse
       (Transfer.post m url "meta.GetSourceFileInfo"
          [Client.P_string ipfsCid] n)) /\
  (forall ipfsCid,
     Client.DownloadFileInfo m ipfsCid n =
     Transfer.settle Client.Unmarshal_DownloadFileInfoResponse
       (Transfer.post m url "meta.GetDownloadFileInfoByIpfsCid"
          [Client.P_string ipfsCid] n)) /\
  (forall datasetId ipfsCids,
     Client.Rebuild m datasetId ipfsCids n =
     Transfer.settle Client.Unmarshal_JsonRpcResp
       (Transfer.post m url "meta.DatasetRebuild"
          [Client.P_RebuildReq datasetId ipfsCids] n)).
Proof.
  intros Hk Ht Hc url.
  repeat split; intros;
    unfold Client.Backup, Client.List, Client.ListStatus,
      Client.SourceFileInfo, Client.DownloadFileInfo, Client.Rebuild;
    cbn [length Nat.eqb];
    rewrite decodeResult_settle;
    rewrite (@httpPost_configured m cnf _ n Hk Ht Hc); reflexivity.
Qed.

End MoreClientFacts.

(* ===================================================================== *)
(** ** Upload and download                                                *)
(* ===================================================================== *)



Section TransferFacts.
Context {N : Type} {remote : Client.Remote N}
        {files : @Transfer.Files N remote}.


(** X18. Without an aria2 configuration (no configuration at all, or one
    whose aria2 settings are [nil]) [Download] fails at once: the meta
    server is not asked and nothing is downloaded. *)
Theorem download_needs_aria2 (m : Client.MetaClient)
  (ipfsCid outPath : string) (downloadUrl : list string) (n : N) :
  (Client.conf m = None \/
   exists cnf, Client.conf m = Some cnf /\ Client.Aria2 cnf = None) ->
  Transfer.Download m ipfsCid outPath downloadUrl n
  = (Err (errors_New "aria2 config is required"), n).
Proof.
  unfold Transfer.Download. intros [-> | (cnf & -> & ->)]; reflexivity.
Qed.

(** X19. When the lookup of the download locations fails, [Download]
    returns that error and downloads nothing; a client with aria2 settings
    but an empty key or token fails so before any request. *)
Theorem download_lookup_failure (m : Client.MetaClient) (cnf : Client.MetaConf)
  (aria2 : Client.Aria2Conf) (ipfsCid outPath : string)
  (downloadUrl : list string) (n : N) :
  Client.conf m = Some cnf -> Client.Aria2 cnf = Some aria2 ->
  (forall e n1,
     Client.DownloadFileInfo m ipfsCid n = (Err e, n1) ->
     Transfer.Download m ipfsCid outPath downloadUrl n = (Err e, n1)) /\
  (Client.key m = "" \/ Client.token m = "" ->
   Transfer.Download m ipfsCid outPath downloadUrl n
   = (Err (errors_New "key or token is required"), n)).
Proof.
  intros Hc Ha. unfold Transfer.Download. rewrite Hc, Ha. split.
  - intros e n1 H. unfold bind. now rewrite H.
  - intros Hkt. unfold bind, Client.DownloadFileInfo, bind, Client.httpPost.
    destruct Hkt as [-> | ->]; [reflexivity|].
    destruct (Client.key m =? "")%string; reflexivity.
Qed.



(** X22. Without an ipfs api address and gateway (no configuration, or an
    empty api address, or an empty gateway) [Upload] fails at once: the
    path is not examined and nothing is uploaded. *)
Theorem upload_needs_ipfs (m : Client.MetaClient) (inputPath : string) (n : N) :
  (Client.conf m = None \/
   exists cnf, Client.conf m = Some cnf /\
               (Client.IpfsApi cnf = "" \/ Client.IpfsGateway cnf = "")) ->
  Transfer.Upload m inputPath n
  = (Err (errors_New "ipfs api or gateway is required"), n).
Proof.
  unfold Transfer.Upload. intros [-> | (cnf & -> & [-> | ->])];
    try reflexivity.
  destruct (Client.IpfsApi cnf =? "")%string; reflexivity.
Qed.

(** X23. A successful [Upload] examined the path, sent a directory
    through the directory uploader and anything else through the file
    uploader, and describes the result by the path it was given, the size
    and kind the path had, the content id the uploader returned, and the
    download url made of the gateway, [ipfs] and that content id. *)
Theorem upload_describes_what_it_sent (m : Client.MetaClient)
  (inputPath : string) (n n' : N) (data : Client.IpfsData) :
  Transfer.Upload m inputPath n = (Ok data, n') ->
  exists cnf isDir size,
    Client.conf m = Some cnf /\
    Client.IpfsApi cnf <> "" /\ Client.IpfsGateway cnf <> "" /\
    Transfer.os_Stat inputPath n = Ok (isDir, size) /\
    (if isDir
     then Transfer.uploadDirToIpfs (Client.IpfsApi cnf) inputPath n
     else Transfer.uploadFileToIpfs (Client.IpfsApi cnf) inputPath n)
      = (Ok (Client.IpfsCid data), n') /\
    data = Client.mkIpfsData (Client.IpfsCid data) inputPath size isDir
             (Transfer.PathJoin
                [Client.IpfsGateway cnf; "ipfs"; Client.IpfsCid data]).
Proof.
  unfold Transfer.Upload. intros H.
  destruct (Client.conf m) as [cnf|]; [|discriminate].
  destruct (String.eqb_spec (Client.IpfsApi cnf) "") as [|Hapi];
    [discriminate|].
  destruct (String.eqb_spec (Client.IpfsGateway cnf) "") as [|Hgw];
    [discriminate|].
  cbn [orb] in H. unfold bind at 1 in H. unfold lift in H.
  destruct (Transfer.os_Stat inputPath n) as [[isDir size]| |] eqn:HS;
    try discriminate.
  cbn [fst snd] in H. unfold bind, ret in H.
  exists cnf, isDir, size. repeat split; try assumption.
  - destruct isDir; cbn [negb] in H.
    + destruct (Transfer.uploadDirToIpfs (Client.IpfsApi cnf) inputPath n)
        as [[cid|?|?] n2]; try discriminate. now inversion H.
    + destruct (Transfer.uploadFileToIpfs (Client.IpfsApi cnf) inputPath n)
        as [[cid|?|?] n2]; try discriminate. now inversion H.
  - destruct isDir; cbn [negb] in H.
    + destruct (Transfer.uploadDirToIpfs (Client.IpfsApi cnf) inputPath n)
        as [[cid|?|?] n2]; try discriminate. now inversion H.
    + destruct (Transfer.uploadFileToIpfs (Client.IpfsApi cnf) inputPath n)
        as [[cid|?|?] n2]; try discriminate. now inversion H.
Qed.

End TransferFacts.

(* ===================================================================== *)
(** ** The further properties on the concrete worlds                      *)
(* ===================================================================== *)

(** One good data line, per entry: one descriptor, built from the line. *)
Lemma reconciled_rows_follow_manifest_witness :
  createFilesDescFromManifest (sys := Runs.S) Runs.entry_cmd Cases.w_a
    = (Ok [Runs.d_a],
       snd (createFilesDescFromManifest (sys := Runs.S) Runs.entry_cmd
              Cases.w_a)) /\
  exists lines,
    ReadAllLines (Sys := Runs.S) (OutputDir Runs.entry_cmd) manifestFilename
      Cases.w_a = Ok lines /\
    length [Runs.d_a] = length (tl lines) /\
    Forall2
      (fun line d =>
         nth_error (Split line comma) 2 = Some (PieceCid d) /\
         (exists f3, nth_error (Split line comma) 3 = Some f3 /\
                     CarFileSize d = GetInt64FromStr (Sys := Runs.S) f3) /\
         CarFilePath d =
           filepath_Join (Sys := Runs.S) (OutputDir Runs.entry_cmd)
             (CarFileName d))
      (tl lines) [Runs.d_a].
Proof.
  assert (H : createFilesDescFromManifest (sys := Runs.S) Runs.entry_cmd
                Cases.w_a
              = (Ok [Runs.d_a],
                 snd (createFilesDescFromManifest (sys := Runs.S)
                        Runs.entry_cmd Cases.w_a))) by reflexivity.
  split; [exact H|].
  exact (@reconciled_rows_follow_manifest _ Runs.S _ _ _ _ H).
Defined.

(** The same run: no identifier, no epoch, no source id. *)
Lemma identifier_and_schedule_never_set_witness :
  createFilesDescFromManifest (sys := Runs.S) Runs.entry_cmd Cases.w_a
    = (Ok [Runs.d_a],
       snd (createFilesDescFromManifest (sys := Runs.S) Runs.entry_cmd
              Cases.w_a)) /\
  Forall
    (fun d =>
       Uuid d = "" /\ StartEpoch d = None /\ SourceId d = None /\
       nth_error (csvColumns d) 0 = Some "" /\
       skipn 12 (csvColumns d) = [""; ""; ""])
    [Runs.d_a].
Proof.
  assert (H : createFilesDescFromManifest (sys := Runs.S) Runs.entry_cmd
                Cases.w_a
              = (Ok [Runs.d_a],
                 snd (createFilesDescFromManifest (sys := Runs.S)
                        Runs.entry_cmd Cases.w_a))) by reflexivity.
  split; [exact H|].
  exact (@identifier_and_schedule_never_set _ Runs.S _ _ _ _ H).
Defined.

(** The same run: the source unit is the first link, under the root. *)
Lemma source_unit_per_policy_witness :
  createFilesDescFromManifest (sys := Runs.S) Runs.entry_cmd Cases.w_a
    = (Ok [Runs.d_a],
       snd (createFilesDescFromManifest (sys := Runs.S) Runs.entry_cmd
              Cases.w_a)) /\
  SourceFileName Runs.d_a = "a" /\ SourceFilePath Runs.d_a = "in/data/a" /\
  exists lines,
    ReadAllLines (Sys := Runs.S) (OutputDir Runs.entry_cmd) manifestFilename
      Cases.w_a = Ok lines /\
    Forall2
      (fun line d =>
         exists md link0 rest,
           Unmarshal (Sys := Runs.S) (detail_of line) = Ok md /\
           Link md = link0 :: rest /\
           SourceFileName d = LinkName link0 /\
           SourceFilePath d =
             filepath_Join (Sys := Runs.S) (InputDir Runs.entry_cmd)
               (LinkName link0))
      (tl lines) [Runs.d_a].
Proof.
  assert (H : createFilesDescFromManifest (sys := Runs.S) Runs.entry_cmd
                Cases.w_a
              = (Ok [Runs.d_a],
                 snd (createFilesDescFromManifest (sys := Runs.S)
                        Runs.entry_cmd Cases.w_a))) by reflexivity.
  split; [exact H|]. split; [reflexivity|]. split; [reflexivity|].
  exact (@source_unit_per_policy _ Runs.S _ _ _ _ H).
Defined.

(** Checksums requested: the archive's digest, and no digest for a source
    that is not on the disk. *)
Lemma checksums_when_requested_witness :
  GenerateMd5 Cases.md5_cmd = true /\
  createFilesDescFromManifest (sys := Runs.S) Cases.md5_cmd Runs.w_ab
    = (Ok [Cases.d_ab_md5],
       snd (createFilesDescFromManifest (sys := Runs.S) Cases.md5_cmd
              Runs.w_ab)) /\
  Forall
    (fun d =>
       MD5sum (Sys := Runs.S) (CarFilePath d) Runs.w_ab = Ok (CarFileMd5 d) /\
       (if IsFileExistsFullPath (Sys := Runs.S) (SourceFilePath d) Runs.w_ab
        then MD5sum (Sys := Runs.S) (SourceFilePath d) Runs.w_ab
             = Ok (SourceFileMd5 d)
        else SourceFileMd5 d = ""))
    [Cases.d_ab_md5].
Proof.
  assert (H : createFilesDescFromManifest (sys := Runs.S) Cases.md5_cmd
                Runs.w_ab
              = (Ok [Cases.d_ab_md5],
                 snd (createFilesDescFromManifest (sys := Runs.S)
                        Cases.md5_cmd Runs.w_ab)))
    by (vm_compute; reflexivity).
  split; [reflexivity|]. split; [exact H|].
  exact (@checksums_when_requested _ Runs.S Cases.md5_cmd Runs.w_ab _ _
           eq_refl H).
Defined.

(** Every line good: the run is the writing of the catalogs. *)
Lemma reconciliation_all_or_nothing_witness :
  ReadAllLines (Sys := Runs.S) (OutputDir Runs.entry_cmd) manifestFilename
    Cases.w_a = Ok [Sim.header; Runs.line_a] /\
  createFilesDescFromManifest (sys := Runs.S) Runs.entry_cmd Cases.w_a =
  bind (WriteCarFilesToFiles (sys := Runs.S) [Runs.d_a]
          (OutputDir Runs.entry_cmd)
          JSON_FILE_NAME_CAR_UPLOAD CSV_FILE_NAME_CAR_UPLOAD)
    (fun _ => ret [Runs.d_a]) Cases.w_a.
Proof.
  assert (H : ReadAllLines (Sys := Runs.S) (OutputDir Runs.entry_cmd)
                manifestFilename Cases.w_a = Ok [Sim.header; Runs.line_a])
    by reflexivity.
  split; [exact H|].
  apply (proj2 (@reconciliation_all_or_nothing _ Runs.S Runs.entry_cmd
                  Cases.w_a _ H)).
  constructor; [reflexivity | constructor].
Defined.

(** A detail that does not decode, after a good line. *)
Lemma undecodable_detail_aborts_witness :
  ReadAllLines (Sys := Runs.S) (OutputDir Runs.entry_cmd) manifestFilename
    Cases.w_broken
    = Ok (Sim.header :: [Runs.line_a] ++ Cases.line_broken :: [])%list /\
  Forall2 (row_ok (sys := Runs.S) Runs.entry_cmd Cases.w_broken)
    [Runs.line_a] [Runs.d_a] /\
  (5 <= length (Split Cases.line_broken comma))%nat /\
  Unmarshal (Sys := Runs.S) (detail_of Cases.line_broken)
    = Err (errorString "invalid character") /\
  createFilesDescFromManifest (sys := Runs.S) Runs.entry_cmd Cases.w_broken
    = (Err (errorString "invalid character"), Cases.w_broken).
Proof.
  assert (H1 : ReadAllLines (Sys := Runs.S) (OutputDir Runs.entry_cmd)
                 manifestFilename Cases.w_broken
               = Ok (Sim.header :: [Runs.line_a] ++ Cases.line_broken :: [])%list)
    by reflexivity.
  assert (H2 : Forall2 (row_ok (sys := Runs.S) Runs.entry_cmd Cases.w_broken)
                 [Runs.line_a] [Runs.d_a])
    by (constructor; [reflexivity | constructor]).
  assert (H3 : (5 <= length (Split Cases.line_broken comma))%nat)
    by (vm_compute; lia).
  assert (H4 : Unmarshal (Sys := Runs.S) (detail_of Cases.line_broken)
               = Err (errorString "invalid character")) by reflexivity.
  repeat (split; [assumption|]).
  exact (proj2 (@undecodable_detail_aborts _ Runs.S Runs.entry_cmd
                  Cases.w_broken Sim.header [Runs.line_a] []
                  Cases.line_broken [Runs.d_a] _ H1 H2 H3 H4)).
Defined.

(** A manifest with its header only. *)
Lemma empty_manifest_writes_empty_catalog_witness :
  ReadAllLines (Sys := Runs.S) (OutputDir Runs.entry_cmd) manifestFilename
    Cases.w_header = Ok [Sim.header] /\
  (length [Sim.header] <= 1)%nat /\
  createFilesDescFromManifest (sys := Runs.S) Runs.entry_cmd Cases.w_header =
  bind (WriteCarFilesToFiles (sys := Runs.S) [] (OutputDir Runs.entry_cmd)
          JSON_FILE_NAME_CAR_UPLOAD CSV_FILE_NAME_CAR_UPLOAD)
    (fun _ => ret []) Cases.w_header.
Proof.
  assert (H1 : ReadAllLines (Sys := Runs.S) (OutputDir Runs.entry_cmd)
                 manifestFilename Cases.w_header = Ok [Sim.header])
    by reflexivity.
  assert (H2 : (length [Sim.header] <= 1)%nat) by (simpl; lia).
  split; [exact H1|]. split; [exact H2|].
  exact (@empty_manifest_writes_empty_catalog _ Runs.S Runs.entry_cmd
           Cases.w_header _ H1 H2).
Defined.



(** A packaging run over two entries whose manifest holds one line. *)
Lemma packaging_success_stages_witness :
  CreateGoCarFiles (sys := Runs.S) Runs.entry_cmd Cases.w_a
    = (Ok [Runs.d_a],
       snd (CreateGoCarFiles (sys := Runs.S) Runs.entry_cmd Cases.w_a)) /\
  0 < GocarFileSizeLimit Runs.entry_cmd /\
  firstn 3
    (Sim.trace (snd (CreateGoCarFiles (sys := Runs.S) Runs.entry_cmd Cases.w_a)))
  = [Sim.MadeDir "out"; Sim.Chunked "in/data/a" "a";
     Sim.Chunked "in/data/b" "b"].
Proof.
  assert (H : CreateGoCarFiles (sys := Runs.S) Runs.entry_cmd Cases.w_a
              = (Ok [Runs.d_a],
                 snd (CreateGoCarFiles (sys := Runs.S) Runs.entry_cmd
                        Cases.w_a)))
    by (vm_compute; reflexivity).
  split; [exact H|].
  split; [exact (proj1 (@packaging_success_stages _ Runs.S _ _ _ _ H))|].
  vm_compute; reflexivity.
Defined.

(** The slicer fails on the second of two entries. *)
Lemma slicer_failure_aborts_packaging_witness :
  CreateGoCarFiles (sys := Cases.F) Runs.entry_cmd Cases.w_a
  = (Err (errorString "chunk failed"),
     Sim.mkWorld (Ok [Sim.header; Runs.line_a]) ["a"; "b"] true
       ["out/bafy1.car"; "out/bafy2.car"]
       [Sim.MadeDir "out"; Sim.Chunked "in/data/a" "a"]).
Proof.
  apply (@slicer_failure_aborts_packaging _ Cases.F Runs.entry_cmd Cases.w_a
           (snd (CreateDirIfNotExists (Sys := Cases.F) "out" DIR_NAME_OUTPUT
                   Cases.w_a))
           (snd (runJobs (sys := Cases.F) Runs.entry_cmd [("in/data/a", "a")]
                   (snd (CreateDirIfNotExists (Sys := Cases.F) "out"
                           DIR_NAME_OUTPUT Cases.w_a))))
           _ ["a"; "b"] [("in/data/a", "a")] [] "in/data/b" "b").
  - reflexivity.
  - vm_compute; reflexivity.
  - vm_compute; reflexivity.
  - vm_compute; reflexivity.
  - vm_compute; reflexivity.
  - vm_compute; reflexivity.
Defined.

(** A root that cannot be listed, under the whole-directory policy. *)
Lemma unlisted_input_aborts_packaging_witness :
  GocarFolderBased Cases.gone_cmd = true /\
  CreateGoCarFiles (sys := Cases.F) Cases.gone_cmd Cases.w_a
  = (Err (errorString "no such directory"),
     Sim.mkWorld (Ok [Sim.header; Runs.line_a]) ["a"; "b"] true
       ["out/bafy1.car"; "out/bafy2.car"] [Sim.MadeDir "out"]).
Proof.
  split; [reflexivity|].
  apply (@unlisted_input_aborts_packaging _ Cases.F Cases.gone_cmd Cases.w_a).
  - reflexivity.
  - vm_compute; reflexivity.
  - vm_compute; reflexivity.
Defined.

(** Two entries, per entry: two jobs, then the reconciliation. *)
Lemma packaging_slices_per_policy_witness :
  sliceJobs (sys := Runs.S) Runs.entry_cmd ["a"; "b"]
    = [("in/data/a", "a"); ("in/data/b", "b")] /\
  CreateGoCarFiles (sys := Runs.S) Runs.entry_cmd Cases.w_a =
  bind (runJobs (sys := Runs.S) Runs.entry_cmd
          (sliceJobs (sys := Runs.S) Runs.entry_cmd ["a"; "b"]))
    (fun _ => createFilesDescFromManifest (sys := Runs.S) Runs.entry_cmd)
    (snd (CreateDirIfNotExists (Sys := Runs.S) "out" DIR_NAME_OUTPUT Cases.w_a)).
Proof.
  split; [reflexivity|].
  apply (proj1 (@packaging_slices_per_policy _ Runs.S Runs.entry_cmd Cases.w_a
                  (snd (CreateDirIfNotExists (Sys := Runs.S) "out"
                          DIR_NAME_OUTPUT Cases.w_a))
                  ["a"; "b"]
                  ltac:(reflexivity)
                  ltac:(vm_compute; reflexivity)
                  ltac:(vm_compute; reflexivity))).
Defined.

(** A fresh client given ipfs settings only: its request goes to the
    empty url. *)
Lemma settings_without_server_post_to_empty_url_witness :
  Client.key Cases.bare <> "" /\ Client.token Cases.bare <> "" /\
  Client.conf Cases.bare = None /\
  Client.SourceFileInfo (remote := SimNet.remote)
    (Client.WithIpfs Cases.bare "http://127.0.0.1:5001" "https://gw.example")
    "bafy1" []
  = (Ok [], [("", "meta.GetSourceFileInfo")]).
Proof.
  assert (Hk : Client.key Cases.bare <> "") by discriminate.
  assert (Ht : Client.token Cases.bare <> "") by discriminate.
  assert (Hc : Client.conf Cases.bare = None) by reflexivity.
  repeat (split; [assumption|]).
  unfold Client.SourceFileInfo, bind.
  rewrite (proj1 (@settings_without_server_post_to_empty_url _ SimNet.remote
                    Cases.bare Hk Ht Hc)).
  reflexivity.
Defined.

(** A ready client lists a dataset: one request, the decoded data. *)
Lemma operations_settle_answers_witness :
  Client.key SimNet.ready <> "" /\ Client.token SimNet.ready <> "" /\
  Client.conf SimNet.ready
    = Some (Client.mkMetaConf "https://meta.example" "" "" None) /\
  Client.List (remote := SimNet.remote) SimNet.ready "set" 1 10 []
  = (Ok tt, [("https://meta.example", "meta.GetDatasetList")]).
Proof.
  assert (Hk : Client.key SimNet.ready <> "") by discriminate.
  assert (Ht : Client.token SimNet.ready <> "") by discriminate.
  assert (Hc : Client.conf SimNet.ready
               = Some (Client.mkMetaConf "https://meta.example" "" "" None))
    by reflexivity.
  repeat (split; [assumption|]).
  destruct (@operations_settle_answers _ SimNet.remote SimNet.ready _ []
              Hk Ht Hc) as (_ & _ & HL & _).
  rewrite HL. reflexivity.
Defined.

(** A client without aria2 settings downloads nothing. *)
Lemma download_needs_aria2_witness :
  (exists cnf, Client.conf SimNet.ready = Some cnf /\ Client.Aria2 cnf = None) /\
  Transfer.Download (files := SimTransfer.files SimTransfer.listing)
    SimNet.ready "bafy1" "out" [] SimTransfer.start
  = (Err (errors_New "aria2 config is required"), SimTransfer.start).
Proof.
  assert (H : exists cnf, Client.conf SimNet.ready = Some cnf /\
                          Client.Aria2 cnf = None)
    by (eexists; split; reflexivity).
  split; [exact H|].
  apply (@download_needs_aria2 _ _ (SimTransfer.files SimTransfer.listing)).
  right. exact H.
Defined.

(** A client with aria2 settings and no token downloads nothing. *)
Lemma download_lookup_failure_witness :
  Client.conf Cases.aria2_no_token
    = Some (Client.mkMetaConf "" "" "" (Some SimTransfer.aria2)) /\
  Client.token Cases.aria2_no_token = "" /\
  Transfer.Download (files := SimTransfer.files SimTransfer.listing)
    Cases.aria2_no_token "bafy1" "out" [] SimTransfer.start
  = (Err (errors_New "key or token is required"), SimTransfer.start).
Proof.
  assert (Hc : Client.conf Cases.aria2_no_token
               = Some (Client.mkMetaConf "" "" "" (Some SimTransfer.aria2)))
    by reflexivity.
  split; [exact Hc|]. split; [reflexivity|].
  apply (proj2 (@download_lookup_failure _ _
                  (SimTransfer.files SimTransfer.listing)
                  Cases.aria2_no_token _ SimTransfer.aria2 "bafy1" "out" []
                  SimTransfer.start Hc eq_refl)).
  right. reflexivity.
Defined.



(** A client with a meta server and no ipfs settings uploads nothing. *)
Lemma upload_needs_ipfs_witness :
  (exists cnf, Client.conf SimNet.ready = Some cnf /\
               (Client.IpfsApi cnf = "" \/ Client.IpfsGateway cnf = "")) /\
  Transfer.Upload (files := SimTransfer.files SimTransfer.listing)
    SimNet.ready "data" SimTransfer.start
  = (Err (errors_New "ipfs api or gateway is required"), SimTransfer.start).
Proof.
  assert (H : exists cnf, Client.conf SimNet.ready = Some cnf /\
                          (Client.IpfsApi cnf = "" \/
                           Client.IpfsGateway cnf = ""))
    by (eexists; split; [reflexivity | left; reflexivity]).
  split; [exact H|].
  apply (@upload_needs_ipfs _ _ (SimTransfer.files SimTransfer.listing)).
  right. exact H.
Defined.

(** The upload of a directory. *)
Lemma upload_describes_what_it_sent_witness :
  Transfer.Upload (files := SimTransfer.files SimTransfer.listing)
    SimTransfer.full "data" SimTransfer.start
  = (Ok (Client.mkIpfsData "Qm-data" "data" 4096 true
           "https://gw.example/ipfs/Qm-data"),
     SimTransfer.act (SimTransfer.Uploaded "http://127.0.0.1:5001" "data")
       SimTransfer.start) /\
  exists cnf isDir size,
    Client.conf SimTransfer.full = Some cnf /\
    Client.IpfsApi cnf <> "" /\ Client.IpfsGateway cnf <> "" /\
    Transfer.os_Stat (Files := SimTransfer.files SimTransfer.listing) "data"
      SimTransfer.start = Ok (isDir, size).
Proof.
  assert (H : Transfer.Upload (files := SimTransfer.files SimTransfer.listing)
                SimTransfer.full "data" SimTransfer.start
              = (Ok (Client.mkIpfsData "Qm-data" "data" 4096 true
                       "https://gw.example/ipfs/Qm-data"),
                 SimTransfer.act
                   (SimTransfer.Uploaded "http://127.0.0.1:5001" "data")
                   SimTransfer.start))
    by (vm_compute; reflexivity).
  split; [exact H|].
  destruct (@upload_describes_what_it_sent _ _
              (SimTransfer.files SimTransfer.listing) _ _ _ _ _ H)
    as (cnf & isDir & size & Hc & Ha & Hg & Hs & _).
  now exists cnf, isDir, size.
Defined.
